(** * Crosswalk embedder glue: extension test shims, the contents-client
    relay and the browser-process client

    Shallow embedding of
    - [ExtensionEchoInternal.java] and [ExtensionBroadcastInternal.java],
    - the [XWalkContentsClient] relay class,
    - [runtime/browser/xwalk_content_browser_client.cc].

    Conventions.  A Java or C++ [int] is a [Z]; no arithmetic is done on
    one here, only comparison and passing on.  A [std::string] is a
    [string], and so is a Java [String], taken to be a reference to a
    string and not [null].  A C++ pointer that the code tests or sets is
    an [option]: [None] is [NULL].  An out-parameter is an argument (what
    the pointer holds on entry) and a result (what it holds on return).
    A call into code that lives outside these files (an abstract
    callback, the extension channel, the logger) is recorded as an event,
    and a function that makes such calls returns the events in program
    order. *)

From Stdlib Require Import ZArith String List Bool.
From stdpp Require Import base option gmap strings.
Import ListNotations.

Local Open Scope string_scope.
Local Open Scope list_scope.
Local Open Scope Z_scope.

(** ** The extension channel ([XWalkExtensionAndroid])

    Both test extensions extend [XWalkExtensionAndroid] and talk back to
    JavaScript through its two methods.  The class itself belongs to the
    extension framework; a call of one of its methods is an event. *)
Module XWalkExtensionAndroid.

Inductive Call : Type :=
| postMessage (instanceID : Z) (message : string)
| broadcastMessage (message : string).

(** The instance a call is addressed to; a broadcast names none. *)
Definition addressee (c : Call) : option Z :=
  match c with
  | postMessage instanceID _ => Some instanceID
  | broadcastMessage _ => None
  end.

Definition content (c : Call) : string :=
  match c with
  | postMessage _ message => message
  | broadcastMessage message => message
  end.

End XWalkExtensionAndroid.

(** ** [ExtensionEchoInternal] *)
Module ExtensionEchoInternal.
Import XWalkExtensionAndroid.

Definition name : string := "echo".

(** [public void handleMessage(int instanceID, String message)] *)
Definition handleMessage (instanceID : Z) (message : string) : list Call :=
  [postMessage instanceID ("From java:" +:+ message)].

(** [public String handleSyncMessage(int instanceID, String message)] *)
Definition handleSyncMessage (instanceID : Z) (message : string) : string :=
  "From java sync:" +:+ message.

(** [public void onDestroy()] *)
Definition onDestroy : list Call := [].

End ExtensionEchoInternal.

(** ** [ExtensionBroadcastInternal] *)
Module ExtensionBroadcastInternal.
Import XWalkExtensionAndroid.

Definition name : string := "broadcast".

(** [public void handleMessage(int instanceID, String message)] *)
Definition handleMessage (instanceID : Z) (message : string) : list Call :=
  [broadcastMessage ("From java broadcast:" +:+ message)].

(** [public String handleSyncMessage(int instanceID, String message)] *)
Definition handleSyncMessage (instanceID : Z) (message : string) : string :=
  "From java:" +:+ message.

(** [public void onDestroy()] *)
Definition onDestroy : list Call := [].

End ExtensionBroadcastInternal.

(** ** [XWalkContentsClient]

    The class is abstract: what it forwards to are its own abstract
    methods, implemented by the embedder.  A call of one of them is an
    event carrying the arguments it is called with. *)
Module XWalkContentsClient.

Inductive Callback : Type :=
| onPageFinished (url : string)
| onReceivedError (errorCode : Z) (description failingUrl : string)
| doUpdateVisitedHistory (url : string) (isReload : bool)
| onTitleChanged (title : string).

Section Relay.

(** [org.chromium.net.NetError.ERR_ABORTED] and
    [ErrorCodeConversionHelper.convertErrorCode] are defined in other
    files; the relay is read for any value of the one and any behaviour
    of the other. *)
Variable ERR_ABORTED : Z.
Variable convertErrorCode : Z -> Z.

(** [XWalkWebContentsObserver.didStopLoading(String url)] *)
Definition didStopLoading (url : string) : list Callback :=
  [onPageFinished url].

(** [XWalkWebContentsObserver.didFailLoad(boolean isProvisionalLoad,
    boolean isMainFrame, int errorCode, String description,
    String failingUrl)] *)
Definition didFailLoad (isProvisionalLoad isMainFrame : bool)
    (errorCode : Z) (description failingUrl : string) : list Callback :=
  if (errorCode =? ERR_ABORTED) || negb isMainFrame then
    []
  else
    [onReceivedError (convertErrorCode errorCode) description failingUrl].

(** [XWalkWebContentsObserver.didNavigateAnyFrame(String url,
    String baseUrl, boolean isReload)] *)
Definition didNavigateAnyFrame (url baseUrl : string) (isReload : bool)
    : list Callback :=
  [doUpdateVisitedHistory url isReload].

(** [XWalkWebContentsObserver.didFinishLoad(long frameId,
    String validatedUrl, boolean isMainFrame)]: the body is empty. *)
Definition didFinishLoad (frameId : Z) (validatedUrl : string)
    (isMainFrame : bool) : list Callback :=
  [].

(** [final public void onUpdateTitle(String title)] *)
Definition onUpdateTitle (title : string) : list Callback :=
  [onTitleChanged title].

End Relay.

End XWalkContentsClient.

(** ** Build configuration

    The C++ file selects code with [#if defined(...)], and its [DCHECK]s
    are compiled in or out with the build.  A build is the set of macros
    that are defined. *)
Record BuildConfig : Type := {
  OS_ANDROID : bool;
  OS_TIZEN : bool;
  DCHECK_IS_ON : bool
}.

(** The same build with its [DCHECK]s compiled in. *)
Definition with_dchecks (cfg : BuildConfig) : BuildConfig :=
  {| OS_ANDROID := OS_ANDROID cfg;
     OS_TIZEN := OS_TIZEN cfg;
     DCHECK_IS_ON := true |}.

(** [DCHECK(condition)] lets the program go on: always when DCHECKs are
    compiled out, and when the condition holds otherwise.  When it does
    not, the process is stopped. *)
Definition DCHECK (cfg : BuildConfig) (condition : bool) : bool :=
  negb (DCHECK_IS_ON cfg) || condition.

(** ** The host engine

    [xwalk_content_browser_client.cc] is written against the [content],
    [net], [url] and [blink] modules of the engine and against other
    parts of the runtime.  None of them is part of these files, so their
    types and operations are the methods of an interface; the browser
    client is read for every implementation of it. *)
Class Engine : Type := {
  (** [url/gurl.h] *)
  GURL : Type;
  GURL_spec : GURL -> string;
  GURL_host : GURL -> string;
  GURL_SchemeIs : GURL -> string -> bool;
  (** [net], [content], [blink]: values that are only passed on;
      [SSLInfo_cert] is [ssl_info.cert.get()], and [BoolCallback] is
      [base::Callback<void(bool)>] *)
  CookieList : Type;
  CookieOptions : Type;
  ResourceContext : Type;
  BrowserContext : Type;
  SSLInfo : Type;
  X509Certificate : Type;
  SSLInfo_cert : SSLInfo -> option X509Certificate;
  ResourceType : Type;
  BoolCallback : Type;
  WindowContainerType : Type;
  Referrer : Type;
  WindowOpenDisposition : Type;
  WebWindowFeatures : Type;
  URLRequestContextGetter : Type;
  BrowserMainParts : Type;
  (** [content::CertificateRequestResultType] *)
  CertificateRequestResultType : Type;
  CERTIFICATE_REQUEST_RESULT_TYPE_DENY : CertificateRequestResultType;
  (** [blink::WebNotificationPresenter::Permission] *)
  Permission : Type;
  PermissionAllowed : Permission;
  PermissionNotAllowed : Permission;
  (** [xwalk/application]: [application::kApplicationScheme], and the
      chain [runner->app_system()->application_service()->
      GetApplicationByRenderHostID(id)], [NULL] when the render host
      belongs to no application *)
  kApplicationScheme : string;
  XWalkRunner : Type;
  Application : Type;
  GetApplicationByRenderHostID : XWalkRunner -> Z -> option Application;
  Application_CanRequestURL : Application -> GURL -> bool;
  (** [xwalk/runtime/browser/android]: the cookie policy singleton and
      the contents-client bridge.  [AllowSetCookie] receives a pointer
      to the cookie options and hands back their content;
      the bridge's [AllowCertificateError] receives a pointer to
      [cancel_request] and hands back its content. *)
  XWalkCookieAccessPolicy_AllowGetCookie :
    GURL -> GURL -> CookieList -> ResourceContext -> Z -> Z -> bool;
  XWalkCookieAccessPolicy_AllowSetCookie :
    GURL -> GURL -> string -> ResourceContext -> Z -> Z -> CookieOptions ->
    bool * CookieOptions;
  XWalkContentsClientBridgeBase : Type;
  FromRenderFrameID : Z -> Z -> option XWalkContentsClientBridgeBase;
  XWalkContentsClientBridgeBase_AllowCertificateError :
    XWalkContentsClientBridgeBase -> Z -> option X509Certificate -> GURL ->
    BoolCallback -> bool -> bool
}.

(** ** [XWalkContentBrowserClient] *)
Module XWalkContentBrowserClient.

Section Client.
Context {E : Engine}.

(** The data members of an instance. *)
Record Instance : Type := {
  xwalk_runner_ : XWalkRunner;
  url_request_context_getter_ : option URLRequestContextGetter;
  main_parts_ : option BrowserMainParts
}.

(** *** The singleton pointer

    The state of the process as far as this class goes: the file-local
    [g_browser_client] and the instances that are alive, by address. *)
Definition Addr : Type := positive.

Record Process : Type := {
  g_browser_client : option Addr;
  alive : gmap positive Instance
}.

(** Before any instance is made: [g_browser_client = NULL]. *)
Definition startup : Process :=
  {| g_browser_client := None; alive := ∅ |}.

(** [static XWalkContentBrowserClient* Get()] *)
Definition Get (p : Process) : option Addr :=
  g_browser_client p.

(** Why a constructor or destructor call does not complete: a [DCHECK]
    stops the process, or the call is not one the language allows (an
    object constructed where one is alive, a destructor run on no
    object). *)
Inductive Fault : Type :=
| DCHECK_failed
| not_an_object_lifetime.

(** A pointer read as a condition: true when it is not [NULL]. *)
Definition non_null (pointer : option Addr) : bool :=
  match pointer with
  | Some _ => true
  | None => false
  end.

(** [XWalkContentBrowserClient(XWalkRunner* xwalk_runner)], run on the
    storage at [this]. *)
Definition ctor (cfg : BuildConfig) (this : Addr) (xwalk_runner : XWalkRunner)
    (p : Process) : Fault + Process :=
  match alive p !! this with
  | Some _ => inl not_an_object_lifetime
  | None =>
      let self := {| xwalk_runner_ := xwalk_runner;
                     url_request_context_getter_ := None;
                     main_parts_ := None |} in
      if DCHECK cfg (negb (non_null (g_browser_client p))) then
        inr {| g_browser_client := Some this;
               alive := <[this := self]> (alive p) |}
      else
        inl DCHECK_failed
  end.

(** [~XWalkContentBrowserClient()], run on the object at [this]. *)
Definition dtor (cfg : BuildConfig) (this : Addr) (p : Process)
    : Fault + Process :=
  match alive p !! this with
  | None => inl not_an_object_lifetime
  | Some _ =>
      if DCHECK cfg (non_null (g_browser_client p)) then
        inr {| g_browser_client := None;
               alive := delete this (alive p) |}
      else
        inl DCHECK_failed
  end.

(** What the rest of the program can do to the singleton. *)
Inductive Op : Type :=
| construct (this : Addr) (xwalk_runner : XWalkRunner)
| destroy (this : Addr).

Definition step (cfg : BuildConfig) (op : Op) (p : Process)
    : Fault + Process :=
  match op with
  | construct this xwalk_runner => ctor cfg this xwalk_runner p
  | destroy this => dtor cfg this p
  end.

(** A history of constructions and destructions, stopped by the first
    fault.  A history that completes on the build with DCHECKs compiled
    in is one in which every call meets what its [DCHECK] requires. *)
Fixpoint run (cfg : BuildConfig) (ops : list Op) (p : Process)
    : Fault + Process :=
  match ops with
  | [] => inr p
  | op :: ops' =>
      match step cfg op p with
      | inl f => inl f
      | inr p' => run cfg ops' p'
      end
  end.

(** The instances alive, as a set of addresses, and the set [Get] names:
    empty for [NULL]. *)
Definition instances (p : Process) : gset positive := dom (alive p).

Definition named_by_Get (p : Process) : gset positive :=
  match Get p with
  | Some this => {[ this ]}
  | None => ∅
  end.

(** The singleton invariant: the instances alive are exactly the one
    [Get] names. *)
Definition single (p : Process) : Prop :=
  instances p = named_by_Get p.

(** *** Cookie policy *)

(** [bool AllowGetCookie(const GURL& url, const GURL& first_party,
    const net::CookieList& cookie_list, content::ResourceContext* context,
    int render_process_id, int render_frame_id)] *)
Definition AllowGetCookie (cfg : BuildConfig) (url first_party : GURL)
    (cookie_list : CookieList) (context : ResourceContext)
    (render_process_id render_frame_id : Z) : bool :=
  if OS_ANDROID cfg then
    XWalkCookieAccessPolicy_AllowGetCookie
      url first_party cookie_list context render_process_id render_frame_id
  else
    true.

(** [bool AllowSetCookie(const GURL& url, const GURL& first_party,
    const std::string& cookie_line, content::ResourceContext* context,
    int render_process_id, int render_frame_id,
    net::CookieOptions* options)]: the value returned, and [*options] on
    return. *)
Definition AllowSetCookie (cfg : BuildConfig) (url first_party : GURL)
    (cookie_line : string) (context : ResourceContext)
    (render_process_id render_frame_id : Z) (options : CookieOptions)
    : bool * CookieOptions :=
  if OS_ANDROID cfg then
    XWalkCookieAccessPolicy_AllowSetCookie
      url first_party cookie_line context render_process_id render_frame_id
      options
  else
    (true, options).

(** *** SSL errors *)

(** [void AllowCertificateError(int render_process_id,
    int render_frame_id, int cert_error, const net::SSLInfo& ssl_info,
    const GURL& request_url, ResourceType::Type resource_type,
    bool overridable, bool strict_enforcement,
    const base::Callback<void(bool)>& callback,
    content::CertificateRequestResultType* result)]: [result] is
    [*result] on entry, the value returned is [*result] on return. *)
Definition AllowCertificateError (cfg : BuildConfig)
    (render_process_id render_frame_id cert_error : Z) (ssl_info : SSLInfo)
    (request_url : GURL) (resource_type : ResourceType)
    (overridable strict_enforcement : bool) (callback : BoolCallback)
    (result : CertificateRequestResultType) : CertificateRequestResultType :=
  if OS_ANDROID cfg then
    let client := FromRenderFrameID render_process_id render_frame_id in
    let cancel_request := true in
    let cancel_request :=
      match client with
      | Some client =>
          XWalkContentsClientBridgeBase_AllowCertificateError
            client cert_error (SSLInfo_cert ssl_info) request_url callback
            cancel_request
      | None => cancel_request
      end in
    if cancel_request then CERTIFICATE_REQUEST_RESULT_TYPE_DENY else result
  else
    result.

(** *** Desktop notifications *)

(** [blink::WebNotificationPresenter::Permission
    CheckDesktopNotificationPermission(const GURL& source_url,
    content::ResourceContext* context, int render_process_id)] *)
Definition CheckDesktopNotificationPermission (cfg : BuildConfig)
    (source_url : GURL) (context : ResourceContext) (render_process_id : Z)
    : Permission :=
  if OS_ANDROID cfg then PermissionAllowed else PermissionNotAllowed.

(** *** Window creation *)

(** What [CanCreateWindow] does besides returning: the store through
    [no_javascript_access], a line on the [INFO] log, and on Tizen the
    hand-over of the URL to the platform. *)
Inductive Effect : Type :=
| store_no_javascript_access (value : bool)
| LOG_INFO (line : string)
| OpenExternal (url : GURL).

Definition is_store (e : Effect) : bool :=
  match e with
  | store_no_javascript_access _ => true
  | _ => false
  end.

(** [bool CanCreateWindow(const GURL& opener_url,
    const GURL& opener_top_level_frame_url, const GURL& source_origin,
    WindowContainerType container_type, const GURL& target_url,
    const content::Referrer& referrer, WindowOpenDisposition disposition,
    const blink::WebWindowFeatures& features, bool user_gesture,
    bool opener_suppressed, content::ResourceContext* context,
    int render_process_id, bool is_guest, int opener_id,
    bool* no_javascript_access)], a member of the instance [self].  The
    override is compiled only when [OS_ANDROID] is not defined: on an
    Android build there is none.  Otherwise: the effects in program
    order, and the value returned. *)
Definition CanCreateWindow (cfg : BuildConfig) (self : Instance)
    (opener_url opener_top_level_frame_url source_origin : GURL)
    (container_type : WindowContainerType) (target_url : GURL)
    (referrer : Referrer) (disposition : WindowOpenDisposition)
    (features : WebWindowFeatures) (user_gesture opener_suppressed : bool)
    (context : ResourceContext) (render_process_id : Z) (is_guest : bool)
    (opener_id : Z) : option (list Effect * bool) :=
  if OS_ANDROID cfg then None
  else Some (
    let entry := [store_no_javascript_access false] in
    match GetApplicationByRenderHostID (xwalk_runner_ self) render_process_id
    with
    | None => (entry, true)
    | Some app =>
        if Application_CanRequestURL app target_url then
          (entry
             ++ [LOG_INFO ("[ALLOW] CreateWindow: " +:+ GURL_spec target_url)],
           true)
        else
          (entry
             ++ [LOG_INFO ("[BlOCK] CreateWindow: " +:+ GURL_spec target_url)]
             ++ (if OS_TIZEN cfg then [OpenExternal target_url] else []),
           false)
    end).

(** [*no_javascript_access] after the effects [es] have run from a
    content of [before]: the last value stored. *)
Definition no_javascript_access_after (before : bool) (es : list Effect)
    : bool :=
  fold_left
    (fun current e =>
       match e with
       | store_no_javascript_access value => value
       | _ => current
       end)
    es before.

(** *** Storage partitions *)

(** The three out-parameters of [GetStoragePartitionConfigForSite]. *)
Record PartitionConfig : Type := {
  partition_domain : string;
  partition_name : string;
  in_memory : bool
}.

(** [void GetStoragePartitionConfigForSite(
    content::BrowserContext* browser_context, const GURL& site,
    bool can_be_default, std::string* partition_domain,
    std::string* partition_name, bool* in_memory)]: [out] is what the
    three pointers hold on entry, the value returned what they hold on
    return. *)
Definition GetStoragePartitionConfigForSite (cfg : BuildConfig)
    (browser_context : BrowserContext) (site : GURL) (can_be_default : bool)
    (out : PartitionConfig) : PartitionConfig :=
  let out := {| in_memory := false;
                partition_domain := partition_domain out;
                partition_name := partition_name out |} in
  let out := {| partition_domain := "";
                partition_name := partition_name out;
                in_memory := in_memory out |} in
  let out := {| partition_name := "";
                partition_domain := partition_domain out;
                in_memory := in_memory out |} in
  if negb (OS_ANDROID cfg) then
    if GURL_SchemeIs site kApplicationScheme then
      {| partition_domain := GURL_host site;
         partition_name := partition_name out;
         in_memory := in_memory out |}
    else out
  else out.

End Client.

End XWalkContentBrowserClient.

(** ** A small engine

    One implementation of [Engine], small enough to run the browser
    client on: a URL is a scheme and a host, render host 1 belongs to an
    application that may request the host ["app.example"] only, and frame
    (1, 1) has a contents-client bridge that lets every certificate error
    pass. *)
Module Sample.

Record Url : Type := { scheme : string; hostname : string }.

Inductive CertResult : Type := CONTINUE | CANCEL | DENY.

Inductive NotificationPermission : Type := Allowed | NotAllowed | Denied.

Definition engine : Engine := {|
  GURL := Url;
  GURL_spec u := scheme u +:+ "://" +:+ hostname u +:+ "/";
  GURL_host := hostname;
  GURL_SchemeIs u s := String.eqb (scheme u) s;
  CookieList := list string;
  CookieOptions := bool;
  ResourceContext := unit;
  BrowserContext := unit;
  SSLInfo := option string;
  X509Certificate := string;
  SSLInfo_cert info := info;
  ResourceType := unit;
  BoolCallback := unit;
  WindowContainerType := unit;
  Referrer := unit;
  WindowOpenDisposition := unit;
  WebWindowFeatures := unit;
  URLRequestContextGetter := unit;
  BrowserMainParts := unit;
  CertificateRequestResultType := CertResult;
  CERTIFICATE_REQUEST_RESULT_TYPE_DENY := DENY;
  Permission := NotificationPermission;
  PermissionAllowed := Allowed;
  PermissionNotAllowed := NotAllowed;
  kApplicationScheme := "app";
  XWalkRunner := unit;
  Application := string;
  GetApplicationByRenderHostID _ id :=
    if id =? 1 then Some "app.example" else None;
  Application_CanRequestURL app url := String.eqb app (hostname url);
  XWalkCookieAccessPolicy_AllowGetCookie _ _ _ _ _ _ := false;
  XWalkCookieAccessPolicy_AllowSetCookie _ _ _ _ _ _ options :=
    (false, negb options);
  XWalkContentsClientBridgeBase := unit;
  FromRenderFrameID pid fid :=
    if (pid =? 1) && (fid =? 1) then Some tt else None;
  XWalkContentsClientBridgeBase_AllowCertificateError _ _ _ _ _ _ := false
|}.

Definition android : BuildConfig :=
  {| OS_ANDROID := true; OS_TIZEN := false; DCHECK_IS_ON := true |}.
Definition tizen : BuildConfig :=
  {| OS_ANDROID := false; OS_TIZEN := true; DCHECK_IS_ON := true |}.
Definition desktop : BuildConfig :=
  {| OS_ANDROID := false; OS_TIZEN := false; DCHECK_IS_ON := true |}.
Definition desktop_release : BuildConfig :=
  {| OS_ANDROID := false; OS_TIZEN := false; DCHECK_IS_ON := false |}.

Definition app_page : Url := {| scheme := "app"; hostname := "app.example" |}.
Definition web_page : Url :=
  {| scheme := "http"; hostname := "other.example" |}.

Definition client : XWalkContentBrowserClient.Instance (E := engine) :=
  {| XWalkContentBrowserClient.xwalk_runner_ := tt : @XWalkRunner engine;
     XWalkContentBrowserClient.url_request_context_getter_ := None;
     XWalkContentBrowserClient.main_parts_ := None |}.

(** Construct at address 1, destroy it, construct at address 2. *)
Definition history : list (XWalkContentBrowserClient.Op (E := engine)) :=
  [XWalkContentBrowserClient.construct 1%positive (tt : @XWalkRunner engine);
   XWalkContentBrowserClient.destroy 1%positive;
   XWalkContentBrowserClient.construct 2%positive (tt : @XWalkRunner engine)].

Definition after_history : XWalkContentBrowserClient.Process (E := engine) :=
  {| XWalkContentBrowserClient.g_browser_client := Some 2%positive;
     XWalkContentBrowserClient.alive := {[ 2%positive := client ]} |}.

End Sample.

(** ** Engine events reaching the relay

    The engine calls the observer and client methods of
    [XWalkContentsClient] one event at a time.  An event names the method
    called and its arguments; [receive] is the call, and [receive_all] a
    run of calls in the order the events arrive. *)
Module EngineEvents.
Import XWalkContentsClient.

Inductive Event : Type :=
| DidStopLoading (url : string)
| DidFailLoad (isProvisionalLoad isMainFrame : bool) (errorCode : Z)
    (description failingUrl : string)
| DidNavigateAnyFrame (url baseUrl : string) (isReload : bool)
| DidFinishLoad (frameId : Z) (validatedUrl : string) (isMainFrame : bool)
| OnUpdateTitle (title : string).

Definition receive (ERR_ABORTED : Z) (convertErrorCode : Z -> Z) (e : Event)
    : list Callback :=
  match e with
  | DidStopLoading url => didStopLoading url
  | DidFailLoad isProvisionalLoad isMainFrame errorCode description
      failingUrl =>
      didFailLoad ERR_ABORTED convertErrorCode isProvisionalLoad isMainFrame
        errorCode description failingUrl
  | DidNavigateAnyFrame url baseUrl isReload =>
      didNavigateAnyFrame url baseUrl isReload
  | DidFinishLoad frameId validatedUrl isMainFrame =>
      didFinishLoad frameId validatedUrl isMainFrame
  | OnUpdateTitle title => onUpdateTitle title
  end.

Definition receive_all (ERR_ABORTED : Z) (convertErrorCode : Z -> Z)
    (es : list Event) : list Callback :=
  flat_map (receive ERR_ABORTED convertErrorCode) es.

Definition is_DidStopLoading (e : Event) : bool :=
  match e with
  | DidStopLoading _ => true
  | _ => false
  end.

Definition is_onPageFinished (c : Callback) : bool :=
  match c with
  | onPageFinished _ => true
  | _ => false
  end.

End EngineEvents.

(** ** Installing the web-contents observer

    [XWalkContentsClient.installWebContentsObserver] and the field
    [mWebContentsObserver] it keeps.  A Java reference is a number; [new]
    takes the next one not yet given out.  The observer's own constructor
    and [detachFromWebContents] belong to [WebContentsObserverAndroid]; a
    call of either is an event. *)
Module ObserverInstall.

Section Install.
Variable ContentViewCore : Type.

Definition Ref : Type := nat.

Record Client : Type := {
  mWebContentsObserver : option Ref;
  next_ref : nat
}.

Inductive ObserverCall : Type :=
| detachFromWebContents (observer : Ref)
| new_XWalkWebContentsObserver (observer : Ref)
    (contentViewCore : ContentViewCore).

(** [void installWebContentsObserver(ContentViewCore contentViewCore)] *)
Definition installWebContentsObserver (contentViewCore : ContentViewCore)
    (client : Client) : Client * list ObserverCall :=
  let detach :=
    match mWebContentsObserver client with
    | Some observer => [detachFromWebContents observer]
    | None => []
    end in
  let observer := next_ref client in
  ({| mWebContentsObserver := Some observer; next_ref := S observer |},
   detach ++ [new_XWalkWebContentsObserver observer contentViewCore]).

(** One call of [installWebContentsObserver] per element of [cores], in
    order. *)
Fixpoint install_each (cores : list ContentViewCore) (client : Client)
    : Client * list ObserverCall :=
  match cores with
  | [] => (client, [])
  | core :: cores' =>
      let '(client1, calls1) := installWebContentsObserver core client in
      let '(client2, calls2) := install_each cores' client1 in
      (client2, calls1 ++ calls2)
  end.

(** The observers made and not detached since, with what each one
    observes, given those there were [before] the calls. *)
Fixpoint undetached (before : list (Ref * ContentViewCore))
    (calls : list ObserverCall) : list (Ref * ContentViewCore) :=
  match calls with
  | [] => before
  | detachFromWebContents observer :: calls' =>
      undetached
        (List.filter (fun entry => negb (Nat.eqb (fst entry) observer))
           before)
        calls'
  | new_XWalkWebContentsObserver observer contentViewCore :: calls' =>
      undetached (before ++ [(observer, contentViewCore)]) calls'
  end.

(** The field and the observers not detached agree: none when the field
    is [null], the one the field holds otherwise. *)
Definition in_step (client : Client)
    (attached : list (Ref * ContentViewCore)) : Prop :=
  match mWebContentsObserver client with
  | None => attached = []
  | Some observer => exists core, attached = [(observer, core)]
  end.

End Install.

End ObserverInstall.

(** ** The other macros the browser client tests *)
Record BuildFeatures : Type := {
  DISABLE_NACL : bool
}.

(** ** More of the host engine

    What the remaining hooks of the browser client call: the command
    line, the NaCl loader hosts, the bridge of a render frame host and the
    runtime context.  As with [Engine], the hooks are read for every
    implementation. *)
Class Hosting (E : Engine) : Type := {
  (** [base::CommandLine] and [switches::kXWalkDisableExtensionProcess] *)
  CommandLine : Type;
  CommandLine_HasSwitch : CommandLine -> string -> bool;
  CommandLine_AppendSwitch : CommandLine -> string -> CommandLine;
  kXWalkDisableExtensionProcess : string;
  (** [nacl::NaClProcessHost]: [process()] and [browser_ppapi_host()]
      return pointers, and [GetData_id] is [GetData().id] *)
  NaClProcessHost : Type;
  BrowserChildProcessHost : Type;
  BrowserPpapiHost : Type;
  NaClProcessHost_process : NaClProcessHost -> option BrowserChildProcessHost;
  GetData_id : BrowserChildProcessHost -> Z;
  NaClProcessHost_browser_ppapi_host :
    NaClProcessHost -> option BrowserPpapiHost;
  (** desktop notifications: values passed on, and
      [XWalkContentsClientBridgeBase::FromRenderFrameHost] *)
  RenderFrameHost : Type;
  ShowDesktopNotificationHostMsgParams : Type;
  DesktopNotificationDelegate : Type;
  Closure : Type;
  FromRenderFrameHost : RenderFrameHost -> option XWalkContentsClientBridgeBase;
  (** [RuntimeContext::CreateRequestContext], reached through
      [static_cast<RuntimeContext*>(browser_context)] *)
  ProtocolHandlerMap : Type;
  ProtocolHandlerScopedVector : Type;
  RuntimeContext_CreateRequestContext :
    BrowserContext -> ProtocolHandlerMap -> ProtocolHandlerScopedVector ->
    option URLRequestContextGetter
}.

(** ** [XWalkContentBrowserClient]: the remaining hooks *)
Module XWalkContentBrowserClientHooks.
Import XWalkContentBrowserClient.

Section Hooks.
Context {E : Engine} {H : Hosting E}.

(** *** Request contexts *)

(** [net::URLRequestContextGetter* CreateRequestContext(
    content::BrowserContext* browser_context,
    content::ProtocolHandlerMap* protocol_handlers,
    content::ProtocolHandlerScopedVector protocol_interceptors)]: the
    instance afterwards, and the pointer returned. *)
Definition CreateRequestContext (self : Instance)
    (browser_context : BrowserContext) (protocol_handlers : ProtocolHandlerMap)
    (protocol_interceptors : ProtocolHandlerScopedVector)
    : Instance * option URLRequestContextGetter :=
  let self :=
    {| xwalk_runner_ := xwalk_runner_ self;
       url_request_context_getter_ :=
         RuntimeContext_CreateRequestContext
           browser_context protocol_handlers protocol_interceptors;
       main_parts_ := main_parts_ self |} in
  (self, url_request_context_getter_ self).

(** [new XWalkAccessTokenStore(getter)] *)
Inductive AccessTokenStore : Type :=
| new_XWalkAccessTokenStore (getter : option URLRequestContextGetter).

(** [content::AccessTokenStore* CreateAccessTokenStore()] *)
Definition CreateAccessTokenStore (self : Instance) : AccessTokenStore :=
  new_XWalkAccessTokenStore (url_request_context_getter_ self).

(** The arguments of one [CreateRequestContext] call. *)
Definition ContextRequest : Type :=
  (BrowserContext * ProtocolHandlerMap * ProtocolHandlerScopedVector)%type.

(** One [CreateRequestContext] call per request, in order: the instance
    afterwards and the pointers returned. *)
Fixpoint create_contexts (requests : list ContextRequest) (self : Instance)
    : Instance * list (option URLRequestContextGetter) :=
  match requests with
  | [] => (self, [])
  | (browser_context, protocol_handlers, protocol_interceptors) :: requests' =>
      let '(self1, getter) :=
        CreateRequestContext self browser_context protocol_handlers
          protocol_interceptors in
      let '(self2, getters) := create_contexts requests' self1 in
      (self2, getter :: getters)
  end.

(** *** Child command lines *)

(** [const char* extra_switches[extra_switches_count]] *)
Definition extra_switches : list string := [kXWalkDisableExtensionProcess].

(** [void AppendExtraCommandLineSwitches(CommandLine* command_line,
    int child_process_id)]: [browser_process_cmd_line] is
    [CommandLine::ForCurrentProcess()], [command_line] what the pointer
    holds on entry, the value returned what it holds on return. *)
Definition AppendExtraCommandLineSwitches
    (browser_process_cmd_line : CommandLine) (command_line : CommandLine)
    (child_process_id : Z) : CommandLine :=
  fold_left
    (fun command_line switch =>
       if CommandLine_HasSwitch browser_process_cmd_line switch
       then CommandLine_AppendSwitch command_line switch
       else command_line)
    extra_switches command_line.

(** *** Desktop notifications *)

(** [bridge->ShowNotification(params, render_frame_host, delegate,
    cancel_callback)] *)
Inductive BridgeCall : Type :=
| ShowNotification (bridge : XWalkContentsClientBridgeBase)
    (params : ShowDesktopNotificationHostMsgParams)
    (render_frame_host : RenderFrameHost)
    (delegate : DesktopNotificationDelegate) (cancel_callback : Closure).

(** [void ShowDesktopNotification(
    const content::ShowDesktopNotificationHostMsgParams& params,
    content::RenderFrameHost* render_frame_host,
    content::DesktopNotificationDelegate* delegate,
    base::Closure* cancel_callback)]: the calls made.  The bridge pointer
    is used as it comes from [FromRenderFrameHost], with no test; the call
    through [NULL] has no defined behaviour, which is [None]. *)
Definition ShowDesktopNotification (cfg : BuildConfig)
    (params : ShowDesktopNotificationHostMsgParams)
    (render_frame_host : RenderFrameHost)
    (delegate : DesktopNotificationDelegate) (cancel_callback : Closure)
    : option (list BridgeCall) :=
  if OS_ANDROID cfg then
    match FromRenderFrameHost render_frame_host with
    | Some bridge =>
        Some [ShowNotification bridge params render_frame_host delegate
                cancel_callback]
    | None => None
    end
  else
    Some [].

(** *** NaCl plugin hosts *)

(** The test of the loop body:
    [host->process() && host->process()->GetData().id == plugin_process_id] *)
Definition is_plugin (plugin_process_id : Z) (host : NaClProcessHost) : bool :=
  match NaClProcessHost_process host with
  | Some process => GetData_id process =? plugin_process_id
  | None => false
  end.

(** The [while (!iter.Done())] loop over what is left of the iteration. *)
Fixpoint search_plugin (plugin_process_id : Z) (iter : list NaClProcessHost)
    : option BrowserPpapiHost :=
  match iter with
  | [] => None
  | host :: iter' =>
      if is_plugin plugin_process_id host
      then NaClProcessHost_browser_ppapi_host host
      else search_plugin plugin_process_id iter'
  end.

(** [content::BrowserPpapiHost* GetExternalBrowserPpapiHost(
    int plugin_process_id)]: [nacl_loaders] are the child process hosts
    of type [PROCESS_TYPE_NACL_LOADER], in the order
    [BrowserChildProcessHostIterator] visits them. *)
Definition GetExternalBrowserPpapiHost (features : BuildFeatures)
    (nacl_loaders : list NaClProcessHost) (plugin_process_id : Z)
    : option BrowserPpapiHost :=
  if negb (DISABLE_NACL features) then
    search_plugin plugin_process_id nacl_loaders
  else
    None.

(** *** Histories of the singleton, read without running them

    A history is well paired when constructions and destructions
    alternate, starting from what is [registered], and each destruction
    is of the instance constructed last. *)
Fixpoint well_paired (registered : option Addr) (ops : list Op) : bool :=
  match ops with
  | [] => true
  | construct this _ :: ops' =>
      match registered with
      | None => well_paired (Some this) ops'
      | Some _ => false
      end
  | destroy this :: ops' =>
      match registered with
      | Some current => Pos.eqb this current && well_paired None ops'
      | None => false
      end
  end.

Definition completes (outcome : Fault + Process) : bool :=
  match outcome with
  | inr _ => true
  | inl _ => false
  end.

End Hooks.

End XWalkContentBrowserClientHooks.

(** ** More of the small engine

    The command line is the list of its switches; a NaCl loader host is
    the id of its process, if it has one, and the name of its plugin
    host, if it has one; render frame host 1 has a bridge. *)
Module SampleHosting.

Definition hosting : Hosting Sample.engine := {|
  CommandLine := list string;
  CommandLine_HasSwitch line switch := existsb (String.eqb switch) line;
  CommandLine_AppendSwitch line switch := line ++ [switch];
  kXWalkDisableExtensionProcess := "disable-extension-process";
  NaClProcessHost := (option Z * option string)%type;
  BrowserChildProcessHost := Z;
  BrowserPpapiHost := string;
  NaClProcessHost_process := fst;
  GetData_id id := id;
  NaClProcessHost_browser_ppapi_host := snd;
  RenderFrameHost := Z;
  ShowDesktopNotificationHostMsgParams := string;
  DesktopNotificationDelegate := unit;
  Closure := unit;
  FromRenderFrameHost frame :=
    (if frame =? 1 then Some tt else None)
    : option (@XWalkContentsClientBridgeBase Sample.engine);
  ProtocolHandlerMap := unit;
  ProtocolHandlerScopedVector := unit;
  RuntimeContext_CreateRequestContext context _ _ :=
    (Some context) : option (@URLRequestContextGetter Sample.engine)
|}.

(** A loader still starting (no process), the loader of process 7, and a
    second host that also reports process 7. *)
Definition loaders : list (@NaClProcessHost Sample.engine hosting) :=
  [(None, Some "starting"); (Some 7, Some "first"); (Some 7, Some "second")].

End SampleHosting.

(** * Properties *)

(** ** The test extensions *)

Example echo_sync_hello :
  ExtensionEchoInternal.handleSyncMessage 7 "hello" = "From java sync:hello".
Proof. reflexivity. Qed.

Example broadcast_hello :
  ExtensionBroadcastInternal.handleMessage 7 "hello"
  = [XWalkExtensionAndroid.broadcastMessage "From java broadcast:hello"].
Proof. reflexivity. Qed.

(** C7.  [ExtensionEchoInternal.handleSyncMessage] returns
    ["From java sync:"] followed by the message, whatever the instance
    id; two calls with the same message and different instance ids
    return the same string. *)
Theorem echo_handleSyncMessage_reply :
  forall (instanceID instanceID' : Z) (m : string),
    ExtensionEchoInternal.handleSyncMessage instanceID m
      = "From java sync:" +:+ m
    /\ ExtensionEchoInternal.handleSyncMessage instanceID m
      = ExtensionEchoInternal.handleSyncMessage instanceID' m.
Proof.
  intros instanceID instanceID' m.
  unfold ExtensionEchoInternal.handleSyncMessage.
  split; reflexivity.
Qed.

(** C8.  [ExtensionEchoInternal.handleMessage] makes exactly one call on
    the extension channel: a [postMessage] addressed to the instance id
    it was given, with content ["From java:"] followed by the message. *)
Theorem echo_handleMessage_posts_once :
  forall (i : Z) (m : string),
    ExtensionEchoInternal.handleMessage i m
      = [XWalkExtensionAndroid.postMessage i ("From java:" +:+ m)]
    /\ length (ExtensionEchoInternal.handleMessage i m) = 1%nat
    /\ Forall
         (fun c =>
            XWalkExtensionAndroid.addressee c = Some i
            /\ XWalkExtensionAndroid.content c = "From java:" +:+ m)
         (ExtensionEchoInternal.handleMessage i m).
Proof.
  intros i m.
  unfold ExtensionEchoInternal.handleMessage.
  repeat split.
  constructor; [ split; reflexivity | constructor ].
Qed.

(** C9.  [ExtensionBroadcastInternal.handleMessage] makes exactly one
    call on the extension channel: a [broadcastMessage], which is
    addressed to no single instance, with content
    ["From java broadcast:"] followed by the message; the call is the
    same whichever instance sent the message. *)
Theorem broadcast_handleMessage_broadcasts_once :
  forall (i i' : Z) (m : string),
    ExtensionBroadcastInternal.handleMessage i m
      = [XWalkExtensionAndroid.broadcastMessage ("From java broadcast:" +:+ m)]
    /\ length (ExtensionBroadcastInternal.handleMessage i m) = 1%nat
    /\ Forall
         (fun c =>
            XWalkExtensionAndroid.addressee c = None
            /\ XWalkExtensionAndroid.content c = "From java broadcast:" +:+ m)
         (ExtensionBroadcastInternal.handleMessage i m)
    /\ ExtensionBroadcastInternal.handleMessage i m
      = ExtensionBroadcastInternal.handleMessage i' m.
Proof.
  intros i i' m.
  unfold ExtensionBroadcastInternal.handleMessage.
  repeat split.
  constructor; [ split; reflexivity | constructor ].
Qed.

(** ** The contents-client relay *)

Section RelayFacts.
Import XWalkContentsClient.
Variable ERR_ABORTED : Z.
Variable convertErrorCode : Z -> Z.

(** [didFailLoad] calls back at most once, and only [onReceivedError]. *)
Lemma didFailLoad_calls (isProvisionalLoad isMainFrame : bool) (errorCode : Z)
    (description failingUrl : string) (c : Callback) :
  In c (didFailLoad ERR_ABORTED convertErrorCode isProvisionalLoad
          isMainFrame errorCode description failingUrl) ->
  c = onReceivedError (convertErrorCode errorCode) description failingUrl
  /\ isMainFrame = true /\ errorCode <> ERR_ABORTED.
Proof.
  unfold didFailLoad.
  destruct (Z.eqb_spec errorCode ERR_ABORTED) as [Heq | Hne];
    destruct isMainFrame; simpl; intros Hin; try contradiction.
  destruct Hin as [<- | []].
  auto.
Qed.

End RelayFacts.

(** C1, as the claim states it, fails: a load that fails in a sub-frame
    is not reported to the embedder. *)
Lemma didFailLoad_sub_frame_is_silent :
  XWalkContentsClient.didFailLoad (-3) (fun code => code)
    false false (-2) "net::ERR_FAILED" "http://example.org/frame.html"
  = [].
Proof. reflexivity. Qed.

(** The same for an aborted load of the main frame. *)
Example didFailLoad_aborted_is_silent :
  XWalkContentsClient.didFailLoad (-3) (fun code => code)
    true true (-3) "net::ERR_ABORTED" "http://example.org/"
  = [].
Proof. reflexivity. Qed.

(** C1, amended.  [onUpdateTitle], [didStopLoading] and
    [didNavigateAnyFrame] each make exactly one call of an abstract
    callback, with the event's arguments ([onTitleChanged],
    [onPageFinished], [doUpdateVisitedHistory]).  [didFailLoad] calls
    [onReceivedError], once, with the converted error code, the
    description and the failing URL, when the frame is the main frame
    and the error code is not [ERR_ABORTED]; otherwise it calls
    nothing. *)
Theorem relay_forwards_events :
  forall (ERR_ABORTED : Z) (convertErrorCode : Z -> Z),
    (forall title,
        XWalkContentsClient.onUpdateTitle title
        = [XWalkContentsClient.onTitleChanged title])
    /\ (forall url,
        XWalkContentsClient.didStopLoading url
        = [XWalkContentsClient.onPageFinished url])
    /\ (forall url baseUrl isReload,
        XWalkContentsClient.didNavigateAnyFrame url baseUrl isReload
        = [XWalkContentsClient.doUpdateVisitedHistory url isReload])
    /\ (forall isProvisionalLoad isMainFrame errorCode description failingUrl,
        XWalkContentsClient.didFailLoad ERR_ABORTED convertErrorCode
          isProvisionalLoad isMainFrame errorCode description failingUrl
        = if isMainFrame && negb (errorCode =? ERR_ABORTED)
          then [XWalkContentsClient.onReceivedError
                  (convertErrorCode errorCode) description failingUrl]
          else []).
Proof.
  intros ERR_ABORTED convertErrorCode.
  repeat split.
  intros isProvisionalLoad isMainFrame errorCode description failingUrl.
  unfold XWalkContentsClient.didFailLoad.
  destruct (errorCode =? ERR_ABORTED), isMainFrame; reflexivity.
Qed.

(** ** The browser client: policy overrides *)

Section PolicyFacts.
Import XWalkContentBrowserClient.
Context {E : Engine}.

(** On a build without [OS_ANDROID] the certificate hook leaves
    [*result] as it found it. *)
Lemma AllowCertificateError_elsewhere (cfg : BuildConfig)
    (render_process_id render_frame_id cert_error : Z) (ssl_info : SSLInfo)
    (request_url : GURL) (resource_type : ResourceType)
    (overridable strict_enforcement : bool) (callback : BoolCallback)
    (result : CertificateRequestResultType) :
  OS_ANDROID cfg = false ->
  AllowCertificateError cfg render_process_id render_frame_id cert_error
    ssl_info request_url resource_type overridable strict_enforcement
    callback result = result.
Proof.
  intros Hos. unfold AllowCertificateError. rewrite Hos. reflexivity.
Qed.

(** With a bridge registered, the bridge decides: [*result] becomes
    [DENY] when it leaves [cancel_request] set, and is left alone when it
    clears it. *)
Lemma AllowCertificateError_bridge (cfg : BuildConfig)
    (render_process_id render_frame_id cert_error : Z) (ssl_info : SSLInfo)
    (request_url : GURL) (resource_type : ResourceType)
    (overridable strict_enforcement : bool) (callback : BoolCallback)
    (result : CertificateRequestResultType)
    (client : XWalkContentsClientBridgeBase) :
  OS_ANDROID cfg = true ->
  FromRenderFrameID render_process_id render_frame_id = Some client ->
  AllowCertificateError cfg render_process_id render_frame_id cert_error
    ssl_info request_url resource_type overridable strict_enforcement
    callback result
  = if XWalkContentsClientBridgeBase_AllowCertificateError client
         cert_error (SSLInfo_cert ssl_info) request_url callback true
    then CERTIFICATE_REQUEST_RESULT_TYPE_DENY
    else result.
Proof.
  intros Hos Hclient. unfold AllowCertificateError.
  rewrite Hos, Hclient. reflexivity.
Qed.

(** The effects of [CanCreateWindow] after the first contain no store. *)
Lemma no_javascript_access_after_frame (before : bool) (es : list Effect) :
  existsb is_store es = false ->
  no_javascript_access_after before es = before.
Proof.
  unfold no_javascript_access_after.
  revert before.
  induction es as [| e es IH]; intros before Hnone; simpl in *.
  - reflexivity.
  - apply orb_false_elim in Hnone as [He Hes].
    destruct e; simpl in He; try discriminate; apply IH; exact Hes.
Qed.

End PolicyFacts.

(** C2.  On an Android build, when [FromRenderFrameID] finds no bridge
    for the render process id and render frame id, [AllowCertificateError]
    leaves [CERTIFICATE_REQUEST_RESULT_TYPE_DENY] in [*result], whatever
    [*result] held before and whatever the other arguments are. *)
Theorem AllowCertificateError_denies_without_bridge :
  forall (E : Engine) (cfg : BuildConfig)
    (render_process_id render_frame_id cert_error : Z) (ssl_info : SSLInfo)
    (request_url : GURL) (resource_type : ResourceType)
    (overridable strict_enforcement : bool) (callback : BoolCallback)
    (result : CertificateRequestResultType),
    OS_ANDROID cfg = true ->
    FromRenderFrameID render_process_id render_frame_id = None ->
    XWalkContentBrowserClient.AllowCertificateError cfg
      render_process_id render_frame_id cert_error ssl_info request_url
      resource_type overridable strict_enforcement callback result
    = CERTIFICATE_REQUEST_RESULT_TYPE_DENY.
Proof.
  intros E cfg pid fid cert_error ssl_info request_url resource_type
    overridable strict_enforcement callback result Hos Hnone.
  unfold XWalkContentBrowserClient.AllowCertificateError.
  rewrite Hos, Hnone.
  reflexivity.
Qed.

(** Frame (2, 5) has no bridge in the small engine; [*result] holds
    [CONTINUE] on entry. *)
Lemma AllowCertificateError_denies_without_bridge_witness :
  OS_ANDROID Sample.android = true
  /\ @FromRenderFrameID Sample.engine 2 5 = None
  /\ @XWalkContentBrowserClient.AllowCertificateError Sample.engine
       Sample.android 2 5 (-202) (Some "leaf") Sample.web_page tt true false
       tt Sample.CONTINUE
     = Sample.DENY.
Proof.
  split; [ reflexivity | split; [ reflexivity | ] ].
  apply (AllowCertificateError_denies_without_bridge Sample.engine
           Sample.android 2 5 (-202) (Some "leaf") Sample.web_page tt true
           false tt Sample.CONTINUE);
    reflexivity.
Defined.

Example CanCreateWindow_blocked_on_tizen :
  @XWalkContentBrowserClient.CanCreateWindow Sample.engine Sample.tizen
    Sample.client Sample.app_page Sample.app_page Sample.app_page tt
    Sample.web_page tt tt tt true false tt 1 false 0
  = Some ([XWalkContentBrowserClient.store_no_javascript_access false;
           XWalkContentBrowserClient.LOG_INFO
             "[BlOCK] CreateWindow: http://other.example/";
           @XWalkContentBrowserClient.OpenExternal Sample.engine
             Sample.web_page],
          false).
Proof. reflexivity. Qed.

(** C3.  On a build without [OS_ANDROID], [CanCreateWindow] first stores
    [false] through [no_javascript_access] and stores nothing there
    afterwards, so that [*no_javascript_access] is [false] on return
    whatever it held; it returns [true] when the render process id
    belongs to no application, [true] when it belongs to an application
    that can request the target URL, and [false] otherwise. *)
Theorem CanCreateWindow_policy :
  forall (E : Engine) (cfg : BuildConfig)
    (self : XWalkContentBrowserClient.Instance)
    (opener_url opener_top_level_frame_url source_origin : GURL)
    (container_type : WindowContainerType) (target_url : GURL)
    (referrer : Referrer) (disposition : WindowOpenDisposition)
    (features : WebWindowFeatures) (user_gesture opener_suppressed : bool)
    (context : ResourceContext) (render_process_id : Z) (is_guest : bool)
    (opener_id : Z),
    OS_ANDROID cfg = false ->
    exists (later : list XWalkContentBrowserClient.Effect) (verdict : bool),
      XWalkContentBrowserClient.CanCreateWindow cfg self opener_url
        opener_top_level_frame_url source_origin container_type target_url
        referrer disposition features user_gesture opener_suppressed context
        render_process_id is_guest opener_id
      = Some (XWalkContentBrowserClient.store_no_javascript_access false
                :: later, verdict)
      /\ existsb XWalkContentBrowserClient.is_store later = false
      /\ (forall before : bool,
            XWalkContentBrowserClient.no_javascript_access_after before
              (XWalkContentBrowserClient.store_no_javascript_access false
                 :: later)
            = false)
      /\ verdict
         = match GetApplicationByRenderHostID
                   (XWalkContentBrowserClient.xwalk_runner_ self)
                   render_process_id
           with
           | None => true
           | Some app => Application_CanRequestURL app target_url
           end.
Proof.
  intros E cfg self opener_url opener_top source_origin container_type
    target_url referrer disposition features user_gesture opener_suppressed
    context render_process_id is_guest opener_id Hos.
  unfold XWalkContentBrowserClient.CanCreateWindow.
  rewrite Hos.
  assert (Hstore : forall later,
    existsb XWalkContentBrowserClient.is_store later = false ->
    forall before,
      XWalkContentBrowserClient.no_javascript_access_after before
        (XWalkContentBrowserClient.store_no_javascript_access false :: later)
      = false).
  { intros later Hlater before.
    change (XWalkContentBrowserClient.no_javascript_access_after false later
            = false).
    apply no_javascript_access_after_frame. exact Hlater. }
  destruct (GetApplicationByRenderHostID _ render_process_id) as [app |].
  - destruct (Application_CanRequestURL app target_url).
    + eexists _, _. split; [ reflexivity | ].
      split; [ reflexivity | ]. split; [ apply Hstore | ]; reflexivity.
    + eexists _, _. split; [ reflexivity | ].
      assert (Hlater : existsb XWalkContentBrowserClient.is_store
                ([XWalkContentBrowserClient.LOG_INFO
                    ("[BlOCK] CreateWindow: " +:+ GURL_spec target_url)]
                 ++ (if OS_TIZEN cfg
                     then [XWalkContentBrowserClient.OpenExternal target_url]
                     else [])) = false)
        by (destruct (OS_TIZEN cfg); reflexivity).
      split; [ exact Hlater | ]. split; [ apply Hstore, Hlater | reflexivity ].
  - eexists _, _. split; [ reflexivity | ].
    split; [ reflexivity | ]. split; [ apply Hstore | ]; reflexivity.
Qed.

(** Render host 1 of the small engine belongs to an application that may
    not request [other.example]: the window is refused on a desktop
    build. *)
Lemma CanCreateWindow_policy_witness :
  OS_ANDROID Sample.desktop = false
  /\ exists later verdict,
       @XWalkContentBrowserClient.CanCreateWindow Sample.engine Sample.desktop
         Sample.client Sample.app_page Sample.app_page Sample.app_page tt
         Sample.web_page tt tt tt true false tt 1 false 0
       = Some (XWalkContentBrowserClient.store_no_javascript_access false
                 :: later, verdict)
       /\ verdict = false.
Proof.
  split; [ reflexivity | ].
  destruct (CanCreateWindow_policy Sample.engine Sample.desktop
              Sample.client Sample.app_page Sample.app_page Sample.app_page
              tt Sample.web_page tt tt tt true false tt 1 false 0 eq_refl)
    as (later & verdict & Hrun & _ & _ & Hverdict).
  exists later, verdict.
  split; [ exact Hrun | exact Hverdict ].
Defined.

(** C4.  On a build without [OS_ANDROID], [AllowGetCookie] and
    [AllowSetCookie] return [true] whatever their arguments are, and
    [AllowSetCookie] leaves the cookie options as they were. *)
Theorem cookies_allowed_off_android :
  forall (E : Engine) (cfg : BuildConfig) (url first_party : GURL)
    (cookie_list : CookieList) (cookie_line : string)
    (context : ResourceContext) (render_process_id render_frame_id : Z)
    (options : CookieOptions),
    OS_ANDROID cfg = false ->
    XWalkContentBrowserClient.AllowGetCookie cfg url first_party cookie_list
      context render_process_id render_frame_id = true
    /\ XWalkContentBrowserClient.AllowSetCookie cfg url first_party
         cookie_line context render_process_id render_frame_id options
       = (true, options).
Proof.
  intros E cfg url first_party cookie_list cookie_line context
    render_process_id render_frame_id options Hos.
  unfold XWalkContentBrowserClient.AllowGetCookie,
    XWalkContentBrowserClient.AllowSetCookie.
  rewrite Hos.
  split; reflexivity.
Qed.

(** The Android policy of the small engine refuses every cookie; the
    Tizen build does not ask it. *)
Lemma cookies_allowed_off_android_witness :
  OS_ANDROID Sample.tizen = false
  /\ @XWalkContentBrowserClient.AllowGetCookie Sample.engine Sample.tizen
       Sample.web_page Sample.app_page ["sid=1"] tt 3 4 = true
  /\ @XWalkContentBrowserClient.AllowSetCookie Sample.engine Sample.tizen
       Sample.web_page Sample.app_page "sid=2; Secure" tt 3 4 true
     = (true, true).
Proof.
  split; [ reflexivity | ].
  apply (cookies_allowed_off_android Sample.engine Sample.tizen
           Sample.web_page Sample.app_page ["sid=1"] "sid=2; Secure" tt 3 4
           true).
  reflexivity.
Defined.

(** On Android the answer is the cookie policy's, which may refuse. *)
Example AllowGetCookie_android_asks_policy :
  @XWalkContentBrowserClient.AllowGetCookie Sample.engine Sample.android
    Sample.web_page Sample.app_page ["sid=1"] tt 3 4 = false.
Proof. reflexivity. Qed.

(** C5.  [CheckDesktopNotificationPermission] returns [PermissionAllowed]
    on a build with [OS_ANDROID] and [PermissionNotAllowed] on every
    other build; two calls on the same build return the same value
    whatever their arguments are. *)
Theorem CheckDesktopNotificationPermission_by_platform :
  forall (E : Engine) (cfg : BuildConfig) (source_url source_url' : GURL)
    (context context' : ResourceContext)
    (render_process_id render_process_id' : Z),
    XWalkContentBrowserClient.CheckDesktopNotificationPermission cfg
      source_url context render_process_id
    = (if OS_ANDROID cfg then PermissionAllowed else PermissionNotAllowed)
    /\ XWalkContentBrowserClient.CheckDesktopNotificationPermission cfg
         source_url context render_process_id
       = XWalkContentBrowserClient.CheckDesktopNotificationPermission cfg
           source_url' context' render_process_id'.
Proof.
  intros E cfg source_url source_url' context context' pid pid'.
  unfold XWalkContentBrowserClient.CheckDesktopNotificationPermission.
  split; reflexivity.
Qed.

Example GetStoragePartitionConfigForSite_app_page :
  @XWalkContentBrowserClient.GetStoragePartitionConfigForSite Sample.engine
    Sample.desktop tt Sample.app_page true
    {| XWalkContentBrowserClient.partition_domain := "stale";
       XWalkContentBrowserClient.partition_name := "stale";
       XWalkContentBrowserClient.in_memory := true |}
  = {| XWalkContentBrowserClient.partition_domain := "app.example";
       XWalkContentBrowserClient.partition_name := "";
       XWalkContentBrowserClient.in_memory := false |}.
Proof. reflexivity. Qed.

(** C6.  After [GetStoragePartitionConfigForSite], whatever the three
    out-parameters held: [*in_memory] is [false], [*partition_name] is
    empty, and [*partition_domain] is empty on a build with [OS_ANDROID],
    and otherwise the site's host when the site's scheme is the
    application scheme and empty when it is not. *)
Theorem GetStoragePartitionConfigForSite_outputs :
  forall (E : Engine) (cfg : BuildConfig) (browser_context : BrowserContext)
    (site : GURL) (can_be_default : bool)
    (out : XWalkContentBrowserClient.PartitionConfig),
    XWalkContentBrowserClient.GetStoragePartitionConfigForSite cfg
      browser_context site can_be_default out
    = {| XWalkContentBrowserClient.partition_domain :=
           if OS_ANDROID cfg then ""
           else if GURL_SchemeIs site kApplicationScheme
                then GURL_host site
                else "";
         XWalkContentBrowserClient.partition_name := "";
         XWalkContentBrowserClient.in_memory := false |}.
Proof.
  intros E cfg browser_context site can_be_default out.
  unfold XWalkContentBrowserClient.GetStoragePartitionConfigForSite.
  destruct (OS_ANDROID cfg); simpl.
  - reflexivity.
  - destruct (GURL_SchemeIs site kApplicationScheme); reflexivity.
Qed.

(** ** The browser client: the singleton *)

Section SingletonFacts.
Import XWalkContentBrowserClient.
Context {E : Engine}.

Lemma single_startup : single startup.
Proof.
  unfold single, instances, named_by_Get, startup; simpl.
  apply dom_empty_L.
Qed.

(** With DCHECKs compiled in, a constructor call completes only from
    [Get() == NULL]; on any build it makes [Get] return the new
    instance. *)
Lemma ctor_completes (cfg : BuildConfig) (this : Addr)
    (xwalk_runner : XWalkRunner) (p p' : Process) :
  ctor cfg this xwalk_runner p = inr p' ->
  (DCHECK_IS_ON cfg = true -> Get p = None)
  /\ Get p' = Some this
  /\ instances p' = {[ this ]} ∪ instances p.
Proof.
  unfold ctor, DCHECK, Get, instances.
  destruct (alive p !! this); [ discriminate | ].
  destruct (DCHECK_IS_ON cfg), (g_browser_client p); simpl;
    try discriminate; intros [= <-]; simpl;
    (split; [ intros; congruence | ]);
    (split; [ reflexivity | apply dom_insert_L ]).
Qed.

(** With DCHECKs compiled in, a destructor call completes only from
    [Get() != NULL]; on any build it resets [Get] to [NULL]. *)
Lemma dtor_completes (cfg : BuildConfig) (this : Addr) (p p' : Process) :
  dtor cfg this p = inr p' ->
  this ∈ instances p
  /\ (DCHECK_IS_ON cfg = true -> exists registered, Get p = Some registered)
  /\ Get p' = None
  /\ instances p' = instances p ∖ {[ this ]}.
Proof.
  unfold dtor, DCHECK, Get, instances.
  destruct (alive p !! this) as [self |] eqn:Hthis; [ | discriminate ].
  assert (Hin : this ∈ dom (alive p)) by (apply elem_of_dom; eauto).
  destruct (DCHECK_IS_ON cfg), (g_browser_client p) as [registered |]; simpl;
    try discriminate; intros [= <-]; simpl;
    (split; [ exact Hin | ]);
    (split; [ intros; eauto; congruence | ]);
    (split; [ reflexivity | apply dom_delete_L ]).
Qed.

(** A call that completes with DCHECKs compiled in completes with the
    same result when they are compiled out. *)
Lemma step_without_dchecks (cfg : BuildConfig) (op : Op) (p p' : Process) :
  step (with_dchecks cfg) op p = inr p' -> step cfg op p = inr p'.
Proof.
  destruct op as [this xwalk_runner | this]; simpl;
    unfold ctor, dtor, DCHECK; simpl;
    destruct (alive p !! this); try discriminate;
    destruct (g_browser_client p); simpl; try discriminate;
    intros [= <-]; rewrite ?orb_true_r; reflexivity.
Qed.

Lemma run_without_dchecks (cfg : BuildConfig) (ops : list Op) :
  forall p p' : Process,
    run (with_dchecks cfg) ops p = inr p' -> run cfg ops p = inr p'.
Proof.
  induction ops as [| op ops IH]; intros p p' Hrun; simpl in *.
  - exact Hrun.
  - destruct (step (with_dchecks cfg) op p) as [fault | q] eqn:Hstep;
      [ discriminate | ].
    rewrite (step_without_dchecks cfg op p q Hstep).
    apply IH, Hrun.
Qed.

Lemma step_keeps_single (cfg : BuildConfig) (op : Op) (p p' : Process) :
  DCHECK_IS_ON cfg = true ->
  single p -> step cfg op p = inr p' -> single p'.
Proof.
  unfold single, named_by_Get.
  intros Hon Hp Hstep.
  destruct op as [this xwalk_runner | this]; simpl in Hstep.
  - apply ctor_completes in Hstep as (Hnull & Hget & Hdom).
    rewrite (Hnull Hon) in Hp. rewrite Hget, Hdom, Hp.
    apply union_empty_r_L.
  - apply dtor_completes in Hstep as (Hin & Hreg & Hget & Hdom).
    destruct (Hreg Hon) as [registered Hregistered].
    rewrite Hregistered in Hp. rewrite Hget, Hdom, Hp.
    rewrite Hp in Hin. apply elem_of_singleton in Hin as ->.
    apply difference_diag_L.
Qed.

Lemma run_keeps_single (cfg : BuildConfig) (ops : list Op) :
  DCHECK_IS_ON cfg = true ->
  forall p p' : Process, single p -> run cfg ops p = inr p' -> single p'.
Proof.
  intros Hon.
  induction ops as [| op ops IH]; intros p p' Hp Hrun; simpl in Hrun.
  - injection Hrun as <-. exact Hp.
  - destruct (step cfg op p) as [fault | q] eqn:Hstep; [ discriminate | ].
    eapply IH; [ | exact Hrun ].
    eapply step_keeps_single; eassumption.
Qed.

Lemma single_at_most_one (p : Process) :
  single p -> (size (instances p) <= 1)%nat.
Proof.
  unfold single, named_by_Get.
  intros ->.
  destruct (Get p).
  - rewrite size_singleton. constructor.
  - rewrite size_empty. auto.
Qed.

End SingletonFacts.

Example second_instance_is_refused :
  @XWalkContentBrowserClient.run Sample.engine Sample.desktop
    (Sample.history ++ [XWalkContentBrowserClient.construct 3%positive
                          (tt : @XWalkRunner Sample.engine)])
    XWalkContentBrowserClient.startup
  = inl XWalkContentBrowserClient.DCHECK_failed.
Proof. vm_compute. reflexivity. Qed.

(** With DCHECKs compiled out nothing stops a caller that ignores what
    the constructor requires: two instances are alive and [Get] returns
    the later one. *)
Example unchecked_second_instance :
  match @XWalkContentBrowserClient.run Sample.engine Sample.desktop_release
          [XWalkContentBrowserClient.construct 1%positive
             (tt : @XWalkRunner Sample.engine);
           XWalkContentBrowserClient.construct 2%positive
             (tt : @XWalkRunner Sample.engine)]
          XWalkContentBrowserClient.startup
  with
  | inr p =>
      XWalkContentBrowserClient.Get p = Some 2%positive
      /\ size (XWalkContentBrowserClient.instances p) = 2%nat
  | inl _ => False
  end.
Proof. vm_compute. split; reflexivity. Qed.

(** C10.  Take any history of constructions and destructions from
    process start in which every call meets what its [DCHECK] requires,
    that is, which completes with DCHECKs compiled in, and let [p] be the
    state it reaches.  The build with DCHECKs compiled out reaches the
    same state.  In [p] at most one instance is alive, and the instances
    alive are exactly the one [Get] returns, none when it returns [NULL].
    From [p], a constructor call passes its [DCHECK] only if [Get]
    returns [NULL], which is when no instance is alive, and then [Get]
    returns the new instance, the only one alive; it is stopped by the
    [DCHECK] when an instance is registered.  A destructor call on an
    instance that is alive finds an instance registered, itself, and
    resets [Get] to [NULL], leaving none alive. *)
Theorem singleton_invariant :
  forall (E : Engine) (cfg : BuildConfig)
    (ops : list XWalkContentBrowserClient.Op)
    (p : XWalkContentBrowserClient.Process),
    XWalkContentBrowserClient.run (with_dchecks cfg) ops
      XWalkContentBrowserClient.startup = inr p ->
    XWalkContentBrowserClient.run cfg ops XWalkContentBrowserClient.startup
      = inr p
    /\ (size (XWalkContentBrowserClient.instances p) <= 1)%nat
    /\ XWalkContentBrowserClient.instances p
       = XWalkContentBrowserClient.named_by_Get p
    /\ (forall this xwalk_runner,
          match XWalkContentBrowserClient.ctor (with_dchecks cfg)
                  this xwalk_runner p
          with
          | inr p' =>
              XWalkContentBrowserClient.Get p = None
              /\ XWalkContentBrowserClient.instances p = ∅
              /\ XWalkContentBrowserClient.Get p' = Some this
              /\ XWalkContentBrowserClient.instances p' = {[ this ]}
          | inl XWalkContentBrowserClient.DCHECK_failed =>
              exists registered,
                XWalkContentBrowserClient.Get p = Some registered
          | inl XWalkContentBrowserClient.not_an_object_lifetime =>
              this ∈ XWalkContentBrowserClient.instances p
          end)
    /\ (forall this,
          match XWalkContentBrowserClient.dtor (with_dchecks cfg) this p with
          | inr p' =>
              XWalkContentBrowserClient.Get p = Some this
              /\ XWalkContentBrowserClient.Get p' = None
              /\ XWalkContentBrowserClient.instances p' = ∅
          | inl XWalkContentBrowserClient.DCHECK_failed => False
          | inl XWalkContentBrowserClient.not_an_object_lifetime =>
              this ∉ XWalkContentBrowserClient.instances p
          end).
Proof.
  intros E cfg ops p Hrun.
  assert (Hon : DCHECK_IS_ON (with_dchecks cfg) = true) by reflexivity.
  assert (Hp : XWalkContentBrowserClient.single p)
    by (eapply run_keeps_single;
        [ exact Hon | apply single_startup | exact Hrun ]).
  split; [ apply run_without_dchecks, Hrun | ].
  split; [ apply single_at_most_one, Hp | ].
  split; [ exact Hp | ].
  split.
  - intros this xwalk_runner.
    destruct (XWalkContentBrowserClient.ctor (with_dchecks cfg)
                this xwalk_runner p) as [[] | p'] eqn:Hctor.
    + unfold XWalkContentBrowserClient.ctor,
        XWalkContentBrowserClient.Get, DCHECK in *.
      destruct (XWalkContentBrowserClient.alive p !! this);
        [ discriminate | ].
      destruct (XWalkContentBrowserClient.g_browser_client p);
        [ eauto | discriminate ].
    + unfold XWalkContentBrowserClient.ctor, DCHECK in Hctor.
      destruct (XWalkContentBrowserClient.alive p !! this) eqn:Hthis.
      * apply elem_of_dom. eauto.
      * destruct (XWalkContentBrowserClient.g_browser_client p);
          discriminate.
    + pose proof (step_keeps_single (with_dchecks cfg)
                    (XWalkContentBrowserClient.construct this xwalk_runner)
                    p p' Hon Hp Hctor) as Hp'.
      apply ctor_completes in Hctor as (Hnull & Hget & _).
      unfold XWalkContentBrowserClient.single,
        XWalkContentBrowserClient.named_by_Get in Hp, Hp'.
      rewrite (Hnull Hon) in Hp. rewrite Hget in Hp'.
      auto.
  - intros this.
    destruct (XWalkContentBrowserClient.dtor (with_dchecks cfg) this p)
      as [[] | p'] eqn:Hdtor.
    + unfold XWalkContentBrowserClient.dtor, DCHECK in Hdtor.
      destruct (XWalkContentBrowserClient.alive p !! this) eqn:Hthis;
        [ | discriminate ].
      assert (Hin : this ∈ XWalkContentBrowserClient.instances p)
        by (apply elem_of_dom; eauto).
      unfold XWalkContentBrowserClient.single,
        XWalkContentBrowserClient.named_by_Get,
        XWalkContentBrowserClient.Get in Hp.
      rewrite Hp in Hin.
      destruct (XWalkContentBrowserClient.g_browser_client p);
        [ discriminate | exact (not_elem_of_empty this Hin) ].
    + unfold XWalkContentBrowserClient.dtor, DCHECK in Hdtor.
      destruct (XWalkContentBrowserClient.alive p !! this) eqn:Hthis.
      * destruct (XWalkContentBrowserClient.g_browser_client p);
          discriminate.
      * apply not_elem_of_dom. exact Hthis.
    + pose proof (step_keeps_single (with_dchecks cfg)
                    (XWalkContentBrowserClient.destroy this) p p' Hon Hp
                    Hdtor) as Hp'.
      apply dtor_completes in Hdtor as (Hin & Hreg & Hget & _).
      destruct (Hreg Hon) as [registered Hregistered].
      unfold XWalkContentBrowserClient.single,
        XWalkContentBrowserClient.named_by_Get in Hp, Hp'.
      rewrite Hregistered in Hp. rewrite Hget in Hp'.
      rewrite Hp in Hin. apply elem_of_singleton in Hin as ->.
      auto.
Qed.

(** The history of the small engine: one instance made and destroyed,
    then a second made, which is the one alive at the end, on the
    release build as on the checked one. *)
Lemma singleton_invariant_witness :
  @XWalkContentBrowserClient.run Sample.engine
    (with_dchecks Sample.desktop_release) Sample.history
    XWalkContentBrowserClient.startup
  = inr Sample.after_history
  /\ @XWalkContentBrowserClient.run Sample.engine Sample.desktop_release
       Sample.history XWalkContentBrowserClient.startup
     = inr Sample.after_history
  /\ (size (XWalkContentBrowserClient.instances Sample.after_history) <= 1)%nat.
Proof.
  assert (Hrun : @XWalkContentBrowserClient.run Sample.engine
                   (with_dchecks Sample.desktop_release) Sample.history
                   XWalkContentBrowserClient.startup
                 = inr Sample.after_history)
    by (vm_compute; reflexivity).
  split; [ exact Hrun | ].
  pose proof (singleton_invariant Sample.engine Sample.desktop_release
                Sample.history Sample.after_history Hrun)
    as (Hrelease & Hsize & _).
  split; [ exact Hrelease | exact Hsize ].
Defined.

(** * Further properties *)

(** ** Replies of the test extensions *)

Lemma substring_whole (s : string) : substring 0 (String.length s) s = s.
Proof.
  induction s as [| a s IH]; simpl; [ reflexivity | rewrite IH; reflexivity ].
Qed.

Lemma substring_after_prefix (prefix message : string) :
  substring (String.length prefix) (String.length message)
    (prefix +:+ message) = message.
Proof.
  induction prefix as [| a prefix IH]; simpl.
  - apply substring_whole.
  - exact IH.
Qed.

(** X1.  Each reply of the two test extensions is a fixed prefix followed
    by the message, so the message is read back from the reply by
    dropping the prefix (15, 10, 20 and 10 characters), and two sync
    replies of the echo extension are equal only for equal messages. *)
Theorem replies_carry_the_message :
  forall (i : Z) (m : string),
    substring 15 (String.length m)
      (ExtensionEchoInternal.handleSyncMessage i m) = m
    /\ Forall
         (fun c =>
            substring 10 (String.length m) (XWalkExtensionAndroid.content c)
            = m)
         (ExtensionEchoInternal.handleMessage i m)
    /\ Forall
         (fun c =>
            substring 20 (String.length m) (XWalkExtensionAndroid.content c)
            = m)
         (ExtensionBroadcastInternal.handleMessage i m)
    /\ substring 10 (String.length m)
         (ExtensionBroadcastInternal.handleSyncMessage i m) = m
    /\ (forall (j : Z) (m' : string),
          ExtensionEchoInternal.handleSyncMessage i m
          = ExtensionEchoInternal.handleSyncMessage j m' ->
          m = m').
Proof.
  intros i m.
  split; [ exact (substring_after_prefix "From java sync:" m) | ].
  split.
  { constructor;
      [ exact (substring_after_prefix "From java:" m) | constructor ]. }
  split.
  { constructor;
      [ exact (substring_after_prefix "From java broadcast:" m)
      | constructor ]. }
  split; [ exact (substring_after_prefix "From java:" m) | ].
  intros j m' Hsame.
  unfold ExtensionEchoInternal.handleSyncMessage in Hsame.
  simpl in Hsame.
  injection Hsame as Hsame. exact Hsame.
Qed.

(** X2.  A sync reply is never the content of an async one: for either
    extension, and whatever the two messages and instances are, the
    string [handleSyncMessage] returns differs from the content of the
    call [handleMessage] makes. *)
Theorem sync_and_async_replies_differ :
  forall (i j : Z) (m m' : string),
    Forall
      (fun c =>
         String.eqb (XWalkExtensionAndroid.content c)
           (ExtensionEchoInternal.handleSyncMessage i m) = false)
      (ExtensionEchoInternal.handleMessage j m')
    /\ Forall
         (fun c =>
            String.eqb (XWalkExtensionAndroid.content c)
              (ExtensionBroadcastInternal.handleSyncMessage i m) = false)
         (ExtensionBroadcastInternal.handleMessage j m').
Proof.
  intros i j m m'.
  split; (constructor; [ reflexivity | constructor ]).
Qed.

(** ** Runs of engine events *)

Section EventRuns.
Import XWalkContentsClient EngineEvents.
Variable ERR_ABORTED : Z.
Variable convertErrorCode : Z -> Z.

Lemma receive_at_most_one (e : Event) :
  (length (receive ERR_ABORTED convertErrorCode e) <= 1)%nat.
Proof.
  destruct e; simpl; auto.
  unfold didFailLoad.
  destruct ((errorCode =? ERR_ABORTED) || negb isMainFrame); simpl; auto.
Qed.

Lemma receive_page_finished (e : Event) :
  List.filter is_onPageFinished (receive ERR_ABORTED convertErrorCode e)
  = match e with
    | DidStopLoading url => [onPageFinished url]
    | _ => []
    end.
Proof.
  destruct e; simpl; try reflexivity.
  unfold didFailLoad.
  destruct ((errorCode =? ERR_ABORTED) || negb isMainFrame); reflexivity.
Qed.

End EventRuns.

(** X3.  Over any run of engine events the relay makes at most one
    callback per event, and exactly one [onPageFinished] per
    [didStopLoading], with its URL and in the order the events arrive;
    no other event, [didFinishLoad] included, leads to [onPageFinished]. *)
Theorem page_finished_once_per_stop :
  forall (ERR_ABORTED : Z) (convertErrorCode : Z -> Z)
    (es : list EngineEvents.Event),
    (length (EngineEvents.receive_all ERR_ABORTED convertErrorCode es)
     <= length es)%nat
    /\ List.filter EngineEvents.is_onPageFinished
         (EngineEvents.receive_all ERR_ABORTED convertErrorCode es)
       = flat_map
           (fun e =>
              match e with
              | EngineEvents.DidStopLoading url =>
                  [XWalkContentsClient.onPageFinished url]
              | _ => []
              end)
           es.
Proof.
  intros ERR_ABORTED convertErrorCode es.
  unfold EngineEvents.receive_all.
  induction es as [| e es [IHlen IHpage]]; simpl.
  - split; reflexivity.
  - split.
    + rewrite length_app.
      pose proof (receive_at_most_one ERR_ABORTED convertErrorCode e).
      lia.
    + rewrite List.filter_app, IHpage, receive_page_finished.
      reflexivity.
Qed.

(** X4.  Every [onReceivedError] the relay makes over a run of engine
    events comes from a [didFailLoad] event of that run for the main
    frame, with an error code other than [ERR_ABORTED], and carries that
    event's description and failing URL and its error code converted. *)
Theorem received_errors_are_main_frame_failures :
  forall (ERR_ABORTED : Z) (convertErrorCode : Z -> Z)
    (es : list EngineEvents.Event) (code : Z) (description failingUrl : string),
    In (XWalkContentsClient.onReceivedError code description failingUrl)
       (EngineEvents.receive_all ERR_ABORTED convertErrorCode es) ->
    exists (isProvisionalLoad : bool) (errorCode : Z),
      In (EngineEvents.DidFailLoad isProvisionalLoad true errorCode
            description failingUrl) es
      /\ errorCode <> ERR_ABORTED
      /\ code = convertErrorCode errorCode.
Proof.
  intros ERR_ABORTED convertErrorCode es code description failingUrl Hin.
  unfold EngineEvents.receive_all in Hin.
  apply in_flat_map in Hin as (e & He & Hcall).
  destruct e; simpl in Hcall;
    try (destruct Hcall as [Hcall | []]; discriminate).
  - apply didFailLoad_calls in Hcall as (Hsame & -> & Hcode).
    injection Hsame as -> -> ->.
    eauto.
  - contradiction.
Qed.

(** A sub-frame failure, an aborted load and a failure of the main
    frame: only the last is reported. *)
Lemma received_errors_are_main_frame_failures_witness :
  In (XWalkContentsClient.onReceivedError (-6) "net::ERR_FAILED"
        "http://example.org/")
     (EngineEvents.receive_all (-3) (fun code => 3 * code)
        [EngineEvents.DidFailLoad false false (-2) "net::ERR_FAILED"
           "http://example.org/frame.html";
         EngineEvents.DidFailLoad true true (-3) "net::ERR_ABORTED"
           "http://example.org/";
         EngineEvents.DidStopLoading "http://example.org/";
         EngineEvents.DidFailLoad false true (-2) "net::ERR_FAILED"
           "http://example.org/"])
  /\ exists (isProvisionalLoad : bool) (errorCode : Z),
       errorCode <> -3 /\ -6 = 3 * errorCode.
Proof.
  assert (Hin : In (XWalkContentsClient.onReceivedError (-6) "net::ERR_FAILED"
                      "http://example.org/")
                   (EngineEvents.receive_all (-3) (fun code => 3 * code)
                      [EngineEvents.DidFailLoad false false (-2)
                         "net::ERR_FAILED" "http://example.org/frame.html";
                       EngineEvents.DidFailLoad true true (-3)
                         "net::ERR_ABORTED" "http://example.org/";
                       EngineEvents.DidStopLoading "http://example.org/";
                       EngineEvents.DidFailLoad false true (-2)
                         "net::ERR_FAILED" "http://example.org/"]))
    by (vm_compute; auto).
  split; [ exact Hin | ].
  destruct (received_errors_are_main_frame_failures _ _ _ _ _ _ Hin)
    as (isProvisionalLoad & errorCode & _ & Hcode & Hconv).
  exists isProvisionalLoad, errorCode.
  split; assumption.
Defined.

(** ** Installing the web-contents observer *)

Section InstallFacts.
Import ObserverInstall.
Context {ContentViewCore : Type}.

Lemma undetached_app (before : list (Ref * ContentViewCore))
    (calls1 calls2 : list (ObserverCall ContentViewCore)) :
  undetached ContentViewCore before (calls1 ++ calls2)
  = undetached ContentViewCore (undetached ContentViewCore before calls1)
      calls2.
Proof.
  revert before.
  induction calls1 as [| c calls1 IH]; intros before; simpl.
  - reflexivity.
  - destruct c; apply IH.
Qed.

Lemma install_leaves_new (core : ContentViewCore) (client : Client)
    (attached : list (Ref * ContentViewCore)) :
  in_step ContentViewCore client attached ->
  undetached ContentViewCore attached
    (snd (installWebContentsObserver ContentViewCore core client))
  = [(next_ref client, core)].
Proof.
  unfold in_step, installWebContentsObserver. simpl.
  destruct (mWebContentsObserver client) as [observer |]; simpl.
  - intros [old ->]. simpl. rewrite Nat.eqb_refl. reflexivity.
  - intros ->. reflexivity.
Qed.

Lemma install_each_leaves_last (cores : list ContentViewCore) :
  forall (client : Client) (attached : list (Ref * ContentViewCore)),
    in_step ContentViewCore client attached ->
    undetached ContentViewCore attached
      (snd (install_each ContentViewCore cores client))
    = match last cores with
      | None => attached
      | Some core => [((next_ref client + length cores - 1)%nat, core)]
      end
    /\ mWebContentsObserver (fst (install_each ContentViewCore cores client))
       = match last cores with
         | None => mWebContentsObserver client
         | Some _ => Some (next_ref client + length cores - 1)%nat
         end.
Proof.
  induction cores as [| core cores IH]; intros client attached Hstep.
  - simpl. split; reflexivity.
  - pose proof (install_leaves_new core client attached Hstep) as Hfirst.
    cbn [install_each].
    destruct (installWebContentsObserver ContentViewCore core client)
      as [client1 calls1] eqn:Hinstall.
    assert (Hclient1 : client1
              = {| mWebContentsObserver := Some (next_ref client);
                   next_ref := S (next_ref client) |})
      by (unfold installWebContentsObserver in Hinstall; congruence).
    destruct (install_each ContentViewCore cores client1)
      as [client2 calls2] eqn:Hrest.
    simpl in Hfirst. simpl.
    specialize (IH client1 [(next_ref client, core)]).
    rewrite Hrest in IH. simpl in IH.
    destruct IH as [IHleft IHfield];
      [ rewrite Hclient1; exists core; reflexivity | ].
    rewrite undetached_app, Hfirst, IHleft, IHfield, last_cons.
    rewrite Hclient1. cbn [next_ref mWebContentsObserver length].
    assert (Hshift : (S (next_ref client) + length cores - 1
                      = next_ref client + S (length cores) - 1)%nat) by lia.
    destruct (last cores) as [core' |] eqn:Hlast.
    + rewrite Hshift. split; reflexivity.
    + apply last_None in Hlast. rewrite Hlast. cbn [length].
      replace (next_ref client + 1 - 1)%nat with (next_ref client) by lia.
      split; reflexivity.
Qed.

End InstallFacts.

(** X5.  After any number of [installWebContentsObserver] calls on a
    client whose observer field is [null], every observer made has been
    detached again except the one made last, which is the one the field
    holds and which observes the content view core of the last call; with
    no call the field stays [null] and no observer is made. *)
Theorem one_observer_left_attached :
  forall (ContentViewCore : Type) (cores : list ContentViewCore) (next : nat),
    ObserverInstall.undetached ContentViewCore []
      (snd (ObserverInstall.install_each ContentViewCore cores
              {| ObserverInstall.mWebContentsObserver := None;
                 ObserverInstall.next_ref := next |}))
    = match last cores with
      | None => []
      | Some core => [((next + length cores - 1)%nat, core)]
      end
    /\ ObserverInstall.mWebContentsObserver
         (fst (ObserverInstall.install_each ContentViewCore cores
                 {| ObserverInstall.mWebContentsObserver := None;
                    ObserverInstall.next_ref := next |}))
       = match last cores with
         | None => None
         | Some _ => Some (next + length cores - 1)%nat
         end.
Proof.
  intros ContentViewCore cores next.
  apply (install_each_leaves_last cores
           {| ObserverInstall.mWebContentsObserver := None;
              ObserverInstall.next_ref := next |} []).
  reflexivity.
Qed.

Example three_installs :
  ObserverInstall.install_each string ["a"; "b"; "c"]
    {| ObserverInstall.mWebContentsObserver := None;
       ObserverInstall.next_ref := 4 |}
  = ({| ObserverInstall.mWebContentsObserver := Some 6%nat;
        ObserverInstall.next_ref := 7 |},
     [ObserverInstall.new_XWalkWebContentsObserver string 4%nat "a";
      ObserverInstall.detachFromWebContents string 4%nat;
      ObserverInstall.new_XWalkWebContentsObserver string 5%nat "b";
      ObserverInstall.detachFromWebContents string 5%nat;
      ObserverInstall.new_XWalkWebContentsObserver string 6%nat "c"]).
Proof. reflexivity. Qed.

(** ** Window creation and certificate errors, further *)

(** X6.  [CanCreateWindow] hands a URL over to the platform
    ([OpenExternal]) only on a Tizen build, only when it refuses the
    window, and then it is the target URL; a window it allows is never
    handed over.  On an Android build the override does not exist. *)
Theorem CanCreateWindow_hands_over_only_refused :
  forall (E : Engine) (cfg : BuildConfig)
    (self : XWalkContentBrowserClient.Instance)
    (opener_url opener_top_level_frame_url source_origin : GURL)
    (container_type : WindowContainerType) (target_url : GURL)
    (referrer : Referrer) (disposition : WindowOpenDisposition)
    (features : WebWindowFeatures) (user_gesture opener_suppressed : bool)
    (context : ResourceContext) (render_process_id : Z) (is_guest : bool)
    (opener_id : Z),
    match
      XWalkContentBrowserClient.CanCreateWindow cfg self opener_url
        opener_top_level_frame_url source_origin container_type target_url
        referrer disposition features user_gesture opener_suppressed context
        render_process_id is_guest opener_id
    with
    | None => OS_ANDROID cfg = true
    | Some (effects, verdict) =>
        OS_ANDROID cfg = false
        /\ (forall url : GURL,
              In (XWalkContentBrowserClient.OpenExternal url) effects
              <-> OS_TIZEN cfg = true /\ verdict = false /\ url = target_url)
    end.
Proof.
  intros E cfg self opener_url opener_top source_origin container_type
    target_url referrer disposition features user_gesture opener_suppressed
    context render_process_id is_guest opener_id.
  unfold XWalkContentBrowserClient.CanCreateWindow.
  destruct (OS_ANDROID cfg); [ reflexivity | ].
  destruct (GetApplicationByRenderHostID _ render_process_id) as [app |];
    [ destruct (Application_CanRequestURL app target_url) | ];
    (split; [ reflexivity | ]); intros url; simpl.
  - split; [ intros [? | [? | []]]; discriminate
           | intros (_ & ? & _); discriminate ].
  - destruct (OS_TIZEN cfg); simpl.
    + split.
      * intros [? | [? | [Hopen | []]]]; try discriminate.
        injection Hopen as <-. auto.
      * intros (_ & _ & ->). auto.
    + split; [ intros [? | [? | []]]; discriminate
             | intros (? & _); discriminate ].
  - split; [ intros [? | []]; discriminate
           | intros (_ & ? & _); discriminate ].
Qed.

(** X7.  Whatever its arguments, [AllowCertificateError] leaves in
    [*result] either what was there or
    [CERTIFICATE_REQUEST_RESULT_TYPE_DENY], never another value; on a
    build without [OS_ANDROID] it leaves what was there, and on Android
    with a bridge registered it denies exactly when the bridge leaves
    [cancel_request] set. *)
Theorem AllowCertificateError_only_denies :
  forall (E : Engine) (cfg : BuildConfig)
    (render_process_id render_frame_id cert_error : Z) (ssl_info : SSLInfo)
    (request_url : GURL) (resource_type : ResourceType)
    (overridable strict_enforcement : bool) (callback : BoolCallback)
    (result : CertificateRequestResultType),
    (XWalkContentBrowserClient.AllowCertificateError cfg render_process_id
       render_frame_id cert_error ssl_info request_url resource_type
       overridable strict_enforcement callback result = result
     \/ XWalkContentBrowserClient.AllowCertificateError cfg render_process_id
          render_frame_id cert_error ssl_info request_url resource_type
          overridable strict_enforcement callback result
        = CERTIFICATE_REQUEST_RESULT_TYPE_DENY)
    /\ (OS_ANDROID cfg = false ->
        XWalkContentBrowserClient.AllowCertificateError cfg render_process_id
          render_frame_id cert_error ssl_info request_url resource_type
          overridable strict_enforcement callback result = result)
    /\ (forall client : XWalkContentsClientBridgeBase,
          OS_ANDROID cfg = true ->
          FromRenderFrameID render_process_id render_frame_id = Some client ->
          XWalkContentBrowserClient.AllowCertificateError cfg
            render_process_id render_frame_id cert_error ssl_info request_url
            resource_type overridable strict_enforcement callback result
          = if XWalkContentsClientBridgeBase_AllowCertificateError client
                 cert_error (SSLInfo_cert ssl_info) request_url callback true
            then CERTIFICATE_REQUEST_RESULT_TYPE_DENY
            else result).
Proof.
  intros E cfg pid fid cert_error ssl_info request_url resource_type
    overridable strict_enforcement callback result.
  split; [ | split ].
  - unfold XWalkContentBrowserClient.AllowCertificateError.
    destruct (OS_ANDROID cfg); [ | left; reflexivity ].
    destruct (FromRenderFrameID pid fid) as [client |];
      [ | right; reflexivity ].
    destruct (XWalkContentsClientBridgeBase_AllowCertificateError client
                cert_error (SSLInfo_cert ssl_info) request_url callback true);
      [ right | left ]; reflexivity.
  - apply AllowCertificateError_elsewhere.
  - intros client. apply AllowCertificateError_bridge.
Qed.

(** ** Desktop notifications *)

(** X8.  [ShowDesktopNotification] does nothing on a build without
    [OS_ANDROID].  On Android it makes one [ShowNotification] call, on the
    bridge of the render frame host and with the arguments it was given,
    when that host has a bridge; it does not test the bridge pointer, and
    for a host without a bridge the call goes through [NULL]. *)
Theorem ShowDesktopNotification_needs_a_bridge :
  forall (E : Engine) (H : Hosting E) (cfg : BuildConfig)
    (params : ShowDesktopNotificationHostMsgParams)
    (render_frame_host : RenderFrameHost)
    (delegate : DesktopNotificationDelegate) (cancel_callback : Closure),
    match
      XWalkContentBrowserClientHooks.ShowDesktopNotification cfg params
        render_frame_host delegate cancel_callback
    with
    | None =>
        OS_ANDROID cfg = true /\ FromRenderFrameHost render_frame_host = None
    | Some calls =>
        (OS_ANDROID cfg = false /\ calls = [])
        \/ (OS_ANDROID cfg = true
            /\ exists bridge,
                 FromRenderFrameHost render_frame_host = Some bridge
                 /\ calls
                    = [XWalkContentBrowserClientHooks.ShowNotification bridge
                         params render_frame_host delegate cancel_callback])
    end.
Proof.
  intros E H cfg params render_frame_host delegate cancel_callback.
  unfold XWalkContentBrowserClientHooks.ShowDesktopNotification.
  destruct (OS_ANDROID cfg); [ | left; split; reflexivity ].
  destruct (FromRenderFrameHost render_frame_host) as [bridge |].
  - right. split; [ reflexivity | ]. exists bridge. split; reflexivity.
  - split; reflexivity.
Qed.

Example ShowDesktopNotification_without_bridge :
  @XWalkContentBrowserClientHooks.ShowDesktopNotification Sample.engine
    SampleHosting.hosting Sample.android "3 new messages" 2 tt tt
  = None.
Proof. reflexivity. Qed.

(** ** NaCl plugin hosts *)

Section PluginSearch.
Import XWalkContentBrowserClientHooks.
Context {E : Engine} {H : Hosting E}.

Lemma search_plugin_skips (plugin_process_id : Z)
    (before after : list NaClProcessHost) :
  forallb (fun host => negb (is_plugin plugin_process_id host)) before = true ->
  search_plugin plugin_process_id (before ++ after)
  = search_plugin plugin_process_id after.
Proof.
  induction before as [| host before IH]; simpl; intros Hnone.
  - reflexivity.
  - apply andb_true_iff in Hnone as [Hhost Hbefore].
    apply negb_true_iff in Hhost. rewrite Hhost.
    apply IH, Hbefore.
Qed.

Lemma search_plugin_found (plugin_process_id : Z)
    (iter : list NaClProcessHost) (ppapi : BrowserPpapiHost) :
  search_plugin plugin_process_id iter = Some ppapi ->
  exists host process,
    In host iter
    /\ NaClProcessHost_process host = Some process
    /\ GetData_id process = plugin_process_id
    /\ NaClProcessHost_browser_ppapi_host host = Some ppapi.
Proof.
  induction iter as [| host iter IH]; simpl; [ discriminate | ].
  destruct (is_plugin plugin_process_id host) eqn:Hhost.
  - intros Hppapi.
    unfold is_plugin in Hhost.
    destruct (NaClProcessHost_process host) as [process |] eqn:Hprocess;
      [ | discriminate ].
    apply Z.eqb_eq in Hhost.
    exists host, process. auto.
  - intros Hrest.
    destruct (IH Hrest) as (found & process & Hin & Hfacts).
    exists found, process. auto.
Qed.

End PluginSearch.

(** X9.  When [GetExternalBrowserPpapiHost] returns a plugin host, NaCl
    is compiled in and the plugin host is that of one of the NaCl loader
    hosts, one that has a process whose id is the id asked for. *)
Theorem GetExternalBrowserPpapiHost_found :
  forall (E : Engine) (H : Hosting E) (features : BuildFeatures)
    (nacl_loaders : list NaClProcessHost) (plugin_process_id : Z)
    (ppapi : BrowserPpapiHost),
    XWalkContentBrowserClientHooks.GetExternalBrowserPpapiHost features
      nacl_loaders plugin_process_id = Some ppapi ->
    DISABLE_NACL features = false
    /\ exists host process,
         In host nacl_loaders
         /\ NaClProcessHost_process host = Some process
         /\ GetData_id process = plugin_process_id
         /\ NaClProcessHost_browser_ppapi_host host = Some ppapi.
Proof.
  intros E H features nacl_loaders plugin_process_id ppapi.
  unfold XWalkContentBrowserClientHooks.GetExternalBrowserPpapiHost.
  destruct (DISABLE_NACL features); simpl; [ discriminate | ].
  intros Hfound. split; [ reflexivity | ].
  apply search_plugin_found, Hfound.
Qed.

Lemma GetExternalBrowserPpapiHost_found_witness :
  @XWalkContentBrowserClientHooks.GetExternalBrowserPpapiHost Sample.engine
    SampleHosting.hosting {| DISABLE_NACL := false |} SampleHosting.loaders 7
  = Some "first"
  /\ exists host process,
       In host SampleHosting.loaders
       /\ fst host = Some process /\ process = 7 /\ snd host = Some "first".
Proof.
  split; [ reflexivity | ].
  exact (proj2 (GetExternalBrowserPpapiHost_found Sample.engine
                  SampleHosting.hosting {| DISABLE_NACL := false |}
                  SampleHosting.loaders 7 "first" eq_refl)).
Defined.

(** X10.  [GetExternalBrowserPpapiHost] answers with the first NaCl
    loader host, in iteration order, that has a process with the id asked
    for: hosts before it that have no process or another id are passed
    over, and hosts after it are not looked at, so the answer is that
    host's plugin host pointer even when it is [NULL] and a later host
    has the same id. *)
Theorem GetExternalBrowserPpapiHost_first_match :
  forall (E : Engine) (H : Hosting E) (features : BuildFeatures)
    (before after : list NaClProcessHost) (host : NaClProcessHost)
    (plugin_process_id : Z),
    DISABLE_NACL features = false ->
    forallb
      (fun earlier =>
         negb (XWalkContentBrowserClientHooks.is_plugin plugin_process_id
                 earlier))
      before = true ->
    XWalkContentBrowserClientHooks.is_plugin plugin_process_id host = true ->
    XWalkContentBrowserClientHooks.GetExternalBrowserPpapiHost features
      (before ++ host :: after) plugin_process_id
    = NaClProcessHost_browser_ppapi_host host.
Proof.
  intros E H features before after host plugin_process_id Hnacl Hbefore Hhost.
  unfold XWalkContentBrowserClientHooks.GetExternalBrowserPpapiHost.
  rewrite Hnacl. simpl.
  rewrite (search_plugin_skips plugin_process_id before (host :: after)
             Hbefore).
  simpl. rewrite Hhost. reflexivity.
Qed.

(** The first host of process 7 has lost its plugin host; the second
    host of process 7 is not reached. *)
Lemma GetExternalBrowserPpapiHost_first_match_witness :
  @XWalkContentBrowserClientHooks.GetExternalBrowserPpapiHost Sample.engine
    SampleHosting.hosting {| DISABLE_NACL := false |}
    ([(None, Some "starting"); (Some 3, Some "other")]
       ++ (Some 7, None) :: [(Some 7, Some "second")])
    7
  = None.
Proof.
  apply (GetExternalBrowserPpapiHost_first_match Sample.engine
           SampleHosting.hosting {| DISABLE_NACL := false |}
           [(None, Some "starting"); (Some 3, Some "other")]
           [(Some 7, Some "second")] (Some 7, None) 7);
    reflexivity.
Defined.

(** X11.  [GetExternalBrowserPpapiHost] returns [NULL] when NaCl is
    compiled out, and when no NaCl loader host has a process with the id
    asked for, in particular when there is no loader host at all. *)
Theorem GetExternalBrowserPpapiHost_not_found :
  forall (E : Engine) (H : Hosting E) (features : BuildFeatures)
    (nacl_loaders : list NaClProcessHost) (plugin_process_id : Z),
    DISABLE_NACL features = true
    \/ forallb
         (fun host =>
            negb (XWalkContentBrowserClientHooks.is_plugin plugin_process_id
                    host))
         nacl_loaders = true ->
    XWalkContentBrowserClientHooks.GetExternalBrowserPpapiHost features
      nacl_loaders plugin_process_id = None.
Proof.
  intros E H features nacl_loaders plugin_process_id Hwhy.
  unfold XWalkContentBrowserClientHooks.GetExternalBrowserPpapiHost.
  destruct (DISABLE_NACL features); simpl; [ reflexivity | ].
  destruct Hwhy as [Hoff | Hnone]; [ discriminate | ].
  rewrite <- (app_nil_r nacl_loaders).
  rewrite (search_plugin_skips plugin_process_id nacl_loaders [] Hnone).
  reflexivity.
Qed.

Lemma GetExternalBrowserPpapiHost_not_found_witness :
  @XWalkContentBrowserClientHooks.GetExternalBrowserPpapiHost Sample.engine
    SampleHosting.hosting {| DISABLE_NACL := false |} SampleHosting.loaders 8
  = None.
Proof.
  apply (GetExternalBrowserPpapiHost_not_found Sample.engine
           SampleHosting.hosting {| DISABLE_NACL := false |}
           SampleHosting.loaders 8).
  right. reflexivity.
Defined.

(** ** Child command lines *)

(** The command line of the small engine answers [HasSwitch] after
    [AppendSwitch] as a command line does. *)
Lemma sample_command_line_appends (line : list string) (s s' : string) :
  @CommandLine_HasSwitch Sample.engine SampleHosting.hosting
    (@CommandLine_AppendSwitch Sample.engine SampleHosting.hosting line s) s'
  = String.eqb s s'
    || @CommandLine_HasSwitch Sample.engine SampleHosting.hosting line s'.
Proof.
  simpl.
  rewrite existsb_app. simpl.
  rewrite orb_false_r, orb_comm, String.eqb_sym.
  reflexivity.
Qed.

(** X12.  For a command line on which a switch is present after
    [AppendSwitch] of it, and no other switch changes:
    after [AppendExtraCommandLineSwitches] the child's command line has
    [kXWalkDisableExtensionProcess] exactly when it had it before or the
    browser process has it, and has any other switch exactly when it had
    it before.  No other switch of the browser process is passed on. *)
Theorem AppendExtraCommandLineSwitches_passes_one_switch :
  forall (E : Engine) (H : Hosting E)
    (browser_process_cmd_line command_line : CommandLine)
    (child_process_id : Z),
    (forall (line : CommandLine) (s s' : string),
        CommandLine_HasSwitch (CommandLine_AppendSwitch line s) s'
        = String.eqb s s' || CommandLine_HasSwitch line s') ->
    forall switch : string,
      CommandLine_HasSwitch
        (XWalkContentBrowserClientHooks.AppendExtraCommandLineSwitches
           browser_process_cmd_line command_line child_process_id)
        switch
      = CommandLine_HasSwitch command_line switch
        || (String.eqb kXWalkDisableExtensionProcess switch
            && CommandLine_HasSwitch browser_process_cmd_line
                 kXWalkDisableExtensionProcess).
Proof.
  intros E H browser child child_process_id Happend switch.
  unfold XWalkContentBrowserClientHooks.AppendExtraCommandLineSwitches,
    XWalkContentBrowserClientHooks.extra_switches.
  simpl.
  destruct (CommandLine_HasSwitch browser kXWalkDisableExtensionProcess).
  - rewrite Happend, andb_true_r. apply orb_comm.
  - rewrite andb_false_r, orb_false_r. reflexivity.
Qed.

(** The browser process runs with two switches; the child gets the one
    and not the other. *)
Lemma AppendExtraCommandLineSwitches_passes_one_switch_witness :
  (forall (line : list string) (s s' : string),
      @CommandLine_HasSwitch Sample.engine SampleHosting.hosting
        (@CommandLine_AppendSwitch Sample.engine SampleHosting.hosting line s)
        s'
      = String.eqb s s'
        || @CommandLine_HasSwitch Sample.engine SampleHosting.hosting line s')
  /\ @CommandLine_HasSwitch Sample.engine SampleHosting.hosting
       (@XWalkContentBrowserClientHooks.AppendExtraCommandLineSwitches
          Sample.engine SampleHosting.hosting
          ["disable-extension-process"; "enable-logging"] ["type=renderer"] 5)
       "enable-logging"
     = false.
Proof.
  split; [ exact sample_command_line_appends | ].
  exact (AppendExtraCommandLineSwitches_passes_one_switch Sample.engine
           SampleHosting.hosting
           ["disable-extension-process"; "enable-logging"] ["type=renderer"] 5
           sample_command_line_appends "enable-logging").
Defined.

(** ** Request contexts and the access token store *)

Section ContextFacts.
Import XWalkContentBrowserClient XWalkContentBrowserClientHooks.
Context {E : Engine} {H : Hosting E}.

Lemma create_contexts_cons (browser_context : BrowserContext)
    (protocol_handlers : ProtocolHandlerMap)
    (protocol_interceptors : ProtocolHandlerScopedVector)
    (requests : list ContextRequest) (self : Instance) :
  create_contexts
    ((browser_context, protocol_handlers, protocol_interceptors) :: requests)
    self
  = (fst (create_contexts requests
            (fst (CreateRequestContext self browser_context protocol_handlers
                    protocol_interceptors))),
     snd (CreateRequestContext self browser_context protocol_handlers
            protocol_interceptors)
     :: snd (create_contexts requests
               (fst (CreateRequestContext self browser_context
                       protocol_handlers protocol_interceptors)))).
Proof.
  cbn [create_contexts].
  destruct (CreateRequestContext self browser_context protocol_handlers
              protocol_interceptors) as [self1 getter].
  cbn [fst snd].
  destruct (create_contexts requests self1) as [self2 getters].
  reflexivity.
Qed.

Lemma create_contexts_latest (requests : list ContextRequest) :
  forall self : Instance,
    url_request_context_getter_ (fst (create_contexts requests self))
    = match last (snd (create_contexts requests self)) with
      | Some getter => getter
      | None => url_request_context_getter_ self
      end
    /\ xwalk_runner_ (fst (create_contexts requests self))
       = xwalk_runner_ self
    /\ main_parts_ (fst (create_contexts requests self)) = main_parts_ self
    /\ length (snd (create_contexts requests self)) = length requests.
Proof.
  induction requests as [| [[browser_context protocol_handlers]
                             protocol_interceptors] requests IH];
    intros self.
  - simpl. auto.
  - rewrite create_contexts_cons. cbn [fst snd].
    destruct (IH (fst (CreateRequestContext self browser_context
                         protocol_handlers protocol_interceptors)))
      as (Hgetter & Hrunner & Hparts & Hlength).
    rewrite last_cons, Hgetter, Hrunner, Hparts.
    cbn [length]. rewrite Hlength.
    destruct (last (snd (create_contexts requests _))); auto.
Qed.

End ContextFacts.

(** X13.  [CreateAccessTokenStore] builds the store on the request
    context getter that the latest [CreateRequestContext] call returned,
    however many calls there were; with no call yet, as on an instance the
    constructor has just made, it builds it on [NULL].
    [CreateRequestContext] changes no other member of the instance. *)
Theorem access_token_store_uses_latest_context :
  forall (E : Engine) (H : Hosting E)
    (requests : list XWalkContentBrowserClientHooks.ContextRequest)
    (self : XWalkContentBrowserClient.Instance),
    XWalkContentBrowserClientHooks.CreateAccessTokenStore
      (fst (XWalkContentBrowserClientHooks.create_contexts requests self))
    = XWalkContentBrowserClientHooks.new_XWalkAccessTokenStore
        (match
           last (snd (XWalkContentBrowserClientHooks.create_contexts
                        requests self))
         with
         | Some getter => getter
         | None => XWalkContentBrowserClient.url_request_context_getter_ self
         end)
    /\ XWalkContentBrowserClient.xwalk_runner_
         (fst (XWalkContentBrowserClientHooks.create_contexts requests self))
       = XWalkContentBrowserClient.xwalk_runner_ self
    /\ XWalkContentBrowserClient.main_parts_
         (fst (XWalkContentBrowserClientHooks.create_contexts requests self))
       = XWalkContentBrowserClient.main_parts_ self
    /\ (forall (cfg : BuildConfig) (this : XWalkContentBrowserClient.Addr)
          (xwalk_runner : XWalkRunner)
          (p p' : XWalkContentBrowserClient.Process),
          XWalkContentBrowserClient.ctor cfg this xwalk_runner p = inr p' ->
          exists made,
            XWalkContentBrowserClient.alive p' !! this = Some made
            /\ XWalkContentBrowserClientHooks.CreateAccessTokenStore made
               = XWalkContentBrowserClientHooks.new_XWalkAccessTokenStore None).
Proof.
  intros E H requests self.
  destruct (create_contexts_latest requests self)
    as (Hgetter & Hrunner & Hparts & _).
  unfold XWalkContentBrowserClientHooks.CreateAccessTokenStore.
  rewrite Hgetter.
  split; [ reflexivity | ].
  split; [ exact Hrunner | ].
  split; [ exact Hparts | ].
  intros cfg this xwalk_runner p p'.
  unfold XWalkContentBrowserClient.ctor.
  destruct (XWalkContentBrowserClient.alive p !! this); [ discriminate | ].
  destruct (DCHECK cfg _); [ | discriminate ].
  intros [= <-]. simpl.
  eexists. split; [ apply lookup_insert_eq | reflexivity ].
Qed.

(** ** Histories of the singleton *)

Section PairingFacts.
Import XWalkContentBrowserClient XWalkContentBrowserClientHooks.
Context {E : Engine}.

Lemma single_lookup (p : Process) (this : Addr) :
  single p ->
  match alive p !! this with
  | Some _ => Get p = Some this
  | None => Get p <> Some this
  end.
Proof.
  unfold single, instances, named_by_Get.
  intros Hp.
  destruct (alive p !! this) as [self |] eqn:Hthis.
  - assert (Hin : this ∈ dom (alive p)) by (apply elem_of_dom; eauto).
    rewrite Hp in Hin.
    destruct (Get p) as [current |].
    + apply elem_of_singleton in Hin as ->. reflexivity.
    + exfalso. exact (not_elem_of_empty this Hin).
  - apply not_elem_of_dom in Hthis. rewrite Hp in Hthis.
    intros Hget. rewrite Hget in Hthis.
    apply Hthis, elem_of_singleton. reflexivity.
Qed.

Lemma run_completes_when_paired (cfg : BuildConfig) (ops : list Op) :
  DCHECK_IS_ON cfg = true ->
  forall p : Process,
    single p ->
    completes (run cfg ops p) = well_paired (Get p) ops.
Proof.
  intros Hon.
  induction ops as [| op ops IH]; intros p Hp; [ reflexivity | ].
  cbn [run well_paired].
  destruct op as [this xwalk_runner | this].
  - destruct (step cfg (construct this xwalk_runner) p) as [fault | p']
      eqn:Hstep.
    + cbn [step] in Hstep. unfold ctor, DCHECK in Hstep. rewrite Hon in Hstep.
      pose proof (single_lookup p this Hp) as Hthis.
      destruct (alive p !! this).
      * rewrite Hthis. reflexivity.
      * unfold Get in *.
        destruct (g_browser_client p); [ reflexivity | discriminate ].
    + pose proof (step_keeps_single cfg _ p p' Hon Hp Hstep) as Hp'.
      cbn [step] in Hstep.
      apply ctor_completes in Hstep as (Hnull & Hget & _).
      rewrite (Hnull Hon), <- Hget.
      apply IH, Hp'.
  - destruct (step cfg (destroy this) p) as [fault | p'] eqn:Hstep.
    + cbn [step] in Hstep. unfold dtor, DCHECK in Hstep. rewrite Hon in Hstep.
      pose proof (single_lookup p this Hp) as Hthis.
      destruct (alive p !! this).
      * unfold Get in *. rewrite Hthis in Hstep. discriminate.
      * destruct (Get p) as [current |]; [ | reflexivity ].
        destruct (Pos.eqb_spec this current) as [-> | Hne];
          [ contradiction | reflexivity ].
    + pose proof (step_keeps_single cfg _ p p' Hon Hp Hstep) as Hp'.
      cbn [step] in Hstep.
      pose proof (single_lookup p this Hp) as Hthis.
      apply dtor_completes in Hstep as (Hin & _ & Hget & _).
      unfold instances in Hin. apply elem_of_dom in Hin as [self Hself].
      rewrite Hself in Hthis. rewrite Hthis, Pos.eqb_refl, <- Hget.
      apply IH, Hp'.
Qed.

End PairingFacts.

(** X14.  With DCHECKs compiled in, a history of constructions and
    destructions from process start completes exactly when it is well
    paired: it is empty, or it starts with a construction and goes on
    alternating, each destruction being of the instance constructed just
    before it.  A second construction without a destruction in between,
    a destruction with nothing constructed, and a destruction at another
    address all stop the process. *)
Theorem completed_histories_are_well_paired :
  forall (E : Engine) (cfg : BuildConfig)
    (ops : list XWalkContentBrowserClient.Op),
    XWalkContentBrowserClientHooks.completes
      (XWalkContentBrowserClient.run (with_dchecks cfg) ops
         XWalkContentBrowserClient.startup)
    = XWalkContentBrowserClientHooks.well_paired None ops.
Proof.
  intros E cfg ops.
  apply (run_completes_when_paired (with_dchecks cfg) ops eq_refl
           XWalkContentBrowserClient.startup).
  apply single_startup.
Qed.
